(** * Dependency checker of l2tdevtools (data/templates/dependencies.py)

    A shallow embedding of the module that checks the availability and the
    version of Python dependencies, and the properties of its design
    document that can be stated over it.

    The Python run time is modelled as far as the module observes it:
    - values are [pyval]: [None], strings, integers, objects that carry an
      attribute table (modules, packages, classes), zero-argument callables,
      and any other value reduced to its truth value and its [str()] text;
    - the environment [Env] says what [__import__] does for a name and
      which attributes the values of builtin types expose; it does not
      change during a run, so importing a name twice does the same twice,
      and reading an attribute raises nothing;
    - a computation [run A] carries the trace of its effects (imports and
      printed lines) and ends with a value or with an uncaught exception.
    A [string] holds the characters of a Python text. [int] is CPython
    3.11's on ASCII text: white space around the literal, a sign, single
    underscores between digits, and the limit of 4300 digits that [int] and
    [str] share. A text with any other character is rejected here, while
    CPython also reads the decimal digits and the spaces of other scripts:
    a text that is accepted here is ASCII and CPython accepts it with the
    same value, and a property that is concluded from a rejection carries
    the hypothesis [ascii_text]. *)

From Stdlib Require Import ZArith Ascii String DecimalString DecimalPos.
From stdpp Require Import base list strings gmap sorting.

Local Open Scope string_scope.
Local Open Scope list_scope.
Local Open Scope Z_scope.

(** ** Python values and exceptions *)

Inductive exn : Type :=
  | ImportError
  | ValueError
  | TypeError
  | OtherError (name : string).

Global Instance exn_eq_dec : EqDecision exn.
Proof. solve_decision. Defined.

#[warnings="-register-all"]
Inductive pyval : Type :=
  | PyNone
  | PyStr (s : string)
  | PyInt (n : Z)
  | PyObject (attrs : list (string * pyval))
  | PyFunction (result : pyval)
  | PyFailing (e : exn)
  | PyOther (truth : bool) (text : string).

(** Truth value of a Python value, as [if not x] tests it. *)
Definition truthy (v : pyval) : bool :=
  match v with
  | PyNone => false
  | PyStr s => negb (String.eqb s "")
  | PyInt n => negb (n =? 0)
  | PyObject _ => true
  | PyFunction _ => true
  | PyFailing _ => true
  | PyOther truth _ => truth
  end.

(** The decimal numeral of an integer: no leading zero, a minus sign for a
    negative integer. *)
Definition numeral (n : Z) : string := NilZero.string_of_int (Z.to_int n).

(** [str(v)], when it gives a text: an integer is written in decimal.
    The text of an object or of a function starts with [<] and is only ever
    handed to [int]. *)
Definition py_str (v : pyval) : string :=
  match v with
  | PyNone => "None"
  | PyStr s => s
  | PyInt n => numeral n
  | PyObject _ => "<object>"
  | PyFunction _ => "<function>"
  | PyFailing _ => "<function>"
  | PyOther _ text => text
  end.

(** ** Effects: trace and exceptions *)

Inductive event : Type :=
  | Import (name : string)
  | Print (line : string).

Inductive result (A : Type) : Type :=
  | Return (a : A)
  | Raise (e : exn).
Arguments Return {A} a.
Arguments Raise {A} e.

Definition run (A : Type) : Type := (list event * result A)%type.

Global Instance run_ret : MRet run := λ A a, ([], Return a).
Global Instance run_bind : MBind run := λ A B f m,
  match m with
  | (t, Return a) => let '(t', r) := f a in (t ++ t', r)
  | (t, Raise e) => (t, Raise e)
  end.

Definition print (line : string) : run unit := ([Print line], Return tt).
Definition raise {A} (e : exn) : run A := ([], Raise e).

(** The lines a trace prints and the module names it imports. *)
Definition printed (t : list event) : list string :=
  omap (λ ev, match ev with Print line => Some line | Import _ => None end) t.
Definition imported (t : list event) : list string :=
  omap (λ ev, match ev with Import name => Some name | Print _ => None end) t.

(** ** The environment *)

Record Env : Type := {
  (** what the import machinery does for a (possibly dotted) name: the
      top-level module, [ImportError], or an exception of the module's own
      initialisation code *)
  import_ : string → result pyval;
  (** attributes that a value other than a [PyObject] exposes through its
      type ([None.__class__], [str.upper], ...) *)
  builtin_attr : pyval → string → option pyval
}.

Fixpoint assoc (name : string) (attrs : list (string * pyval)) : option pyval :=
  match attrs with
  | [] => None
  | (k, v) :: rest => if String.eqb k name then Some v else assoc name rest
  end.

(** Attribute lookup; [None] stands for [AttributeError]. *)
Definition attr_lookup (env : Env) (obj : pyval) (name : string) : option pyval :=
  match obj with
  | PyObject attrs => assoc name attrs
  | _ => builtin_attr env obj name
  end.

(** [getattr(obj, name, default)] *)
Definition getattr (env : Env) (obj : pyval) (name : string) (default : pyval) : pyval :=
  from_option id default (attr_lookup env obj name).

(** [__import__(name)]: an empty name is rejected with [ValueError]. *)
Definition __import__ (env : Env) (name : string) : run pyval :=
  ([Import name], if String.eqb name "" then Raise ValueError else import_ env name).

(** [f()] for a zero-argument call. *)
Definition py_call (f : pyval) : run pyval :=
  match f with
  | PyFunction result => mret result
  | PyFailing e => raise e
  | _ => raise TypeError
  end.

(** ** Strings *)

Definition tab : string := String (ascii_of_nat 9) "".

(** [str.split(sep)] and [re.split] for a pattern that matches single
    characters: the pieces between separators, empty pieces included. *)
Fixpoint split_on (is_sep : ascii → bool) (s : string) : list string :=
  match s with
  | "" => [""]
  | String c rest =>
      if is_sep c then "" :: split_on is_sep rest
      else match split_on is_sep rest with
           | piece :: pieces => String c piece :: pieces
           | [] => [String c ""]
           end
  end.

Fixpoint contains (c : ascii) (s : string) : bool :=
  match s with
  | "" => false
  | String d rest => Ascii.eqb c d || contains c rest
  end.

(** [s.endswith(suffix)] *)
Definition endswith (s suffix : string) : bool :=
  String.eqb
    (substring (String.length s - String.length suffix) (String.length suffix) s)
    suffix
  && Nat.leb (String.length suffix) (String.length s).

(** [s[:-2]] *)
Definition drop_last2 (s : string) : string :=
  substring 0 (String.length s - 2) s.

(** ** [int(token)] on text *)

Definition is_digit (c : ascii) : bool :=
  (Nat.leb 48 (nat_of_ascii c) && Nat.leb (nat_of_ascii c) 57)%nat.
Definition digit_value (c : ascii) : Z := Z.of_nat (nat_of_ascii c) - 48.
(** The characters that [int] skips around a literal: tab, line feed,
    vertical tab, form feed, carriage return and space. *)
Definition is_whitespace (c : ascii) : bool :=
  let n := nat_of_ascii c in
  (Nat.leb 9 n && Nat.leb n 13) || Nat.eqb n 32.

Fixpoint lstrip (s : string) : string :=
  match s with
  | String c rest => if is_whitespace c then lstrip rest else s
  | "" => ""
  end.
Definition strip (s : string) : string :=
  String.rev (lstrip (String.rev (lstrip s))).

(** Decimal digits, single underscores allowed between two digits. *)
Fixpoint digits_value (acc : Z) (after_digit : bool) (s : string) : option Z :=
  match s with
  | "" => if after_digit then Some acc else None
  | String c rest =>
      if is_digit c then digits_value (10 * acc + digit_value c) true rest
      else if Ascii.eqb c "_" && after_digit then digits_value acc false rest
      else None
  end.

(** [sys.get_int_max_str_digits()]: the longest decimal literal that [int]
    reads and the longest that [str] writes. *)
Definition int_max_str_digits : Z := 4300.

(** The number of digits of a literal; underscores do not count. *)
Fixpoint digit_count (s : string) : Z :=
  match s with
  | "" => 0
  | String c rest => (if is_digit c then 1 else 0) + digit_count rest
  end.

(** The literal after its sign: too many digits are refused, as is a
    literal that is not one. *)
Definition py_int_digits (body : string) : option Z :=
  if digit_count body >? int_max_str_digits then None
  else digits_value 0 false body.

Definition py_int (token : string) : option Z :=
  match strip token with
  | String "+" body => py_int_digits body
  | String "-" body => Z.opp <$> py_int_digits body
  | body => py_int_digits body
  end.

(** ['{0!s}'.format(v)]: [str] refuses an integer of more than 4300
    digits with [ValueError]. *)
Definition py_format (v : pyval) : run string :=
  match v with
  | PyInt _ =>
      if digit_count (py_str v) >? int_max_str_digits then raise ValueError
      else mret (py_str v)
  | _ => mret (py_str v)
  end.

(** Text whose characters are all ASCII. *)
Fixpoint ascii_text (s : string) : bool :=
  match s with
  | "" => true
  | String c rest => Nat.ltb (nat_of_ascii c) 128 && ascii_text rest
  end.

(** ** Version vectors *)

(** [_VERSION_SPLIT_REGEX = re.compile(r'\.|\-')] *)
Definition _VERSION_SPLIT_REGEX (c : ascii) : bool :=
  Ascii.eqb c "." || Ascii.eqb c "-".

(** [list(map(int, _VERSION_SPLIT_REGEX.split(raw)))], [None] when [int]
    rejects a token. *)
Definition Parse (raw : string) : option (list Z) :=
  mapM py_int (split_on _VERSION_SPLIT_REGEX raw).

(** The same inside a computation: a rejected token raises [ValueError]. *)
Definition version_map (raw : string) : run (list Z) :=
  match Parse raw with
  | Some v => mret v
  | None => raise ValueError
  end.

(** The version text that writes the components of a vector in decimal
    with dots between them. *)
Definition dotted (v : list Z) : string := String.concat "." (map numeral v).

(** [v < w] on lists of integers: the first pair of items that differ
    decides; without one, the shorter list is the smaller. *)
Fixpoint list_lt (v w : list Z) : bool :=
  match v, w with
  | x :: v', y :: w' => if x =? y then list_lt v' w' else x <? y
  | [], _ :: _ => true
  | _, [] => false
  end.

(** [v > w] on lists of integers. *)
Fixpoint list_gt (v w : list Z) : bool :=
  match v, w with
  | x :: v', y :: w' => if x =? y then list_gt v' w' else x >? y
  | _ :: _, [] => true
  | [], _ => false
  end.

(** ** The module's functions *)

(** A value of [PYTHON_DEPENDENCIES]:
    [(version_attribute_name, minimum_version, maximum_version, is_required)].
    The three texts may be [None]. *)
Record version_tuple : Type := {
  version_attribute_name : option string;
  minimum_version : option string;
  maximum_version : option string;
  is_required : bool
}.

(** Truth value of an optional text: [None] and [''] are false. The text is
    handed on when it is true. *)
Definition nonempty (s : option string) : option string :=
  match s with
  | Some text => if String.eqb text "" then None else Some text
  | None => None
  end.

(** [_ImportPythonModule(module_name)] *)
Definition _ImportPythonModule (env : Env) (module_name : string) : run pyval :=
  match __import__ env module_name with
  | (t, Raise ImportError) => (t, Return PyNone)
  | (t, Raise e) => (t, Raise e)
  | (t, Return module_object) =>
      (t, Return
        (if contains "." module_name then
           foldl (λ module_object submodule_name,
                    getattr env module_object submodule_name PyNone)
                 module_object (tail (split_on (Ascii.eqb ".") module_name))
         else module_object))
  end.

(** Lines 57 to 63 of [_CheckPythonModule]: the value of the version
    attribute, or of the call of the version method. *)
Definition module_version_of (env : Env) (module_object : pyval)
    (version_attribute_name : string) : run pyval :=
  if negb (endswith version_attribute_name "()") then
    mret (getattr env module_object version_attribute_name PyNone)
  else
    let version_method :=
      getattr env module_object (drop_last2 version_attribute_name) PyNone in
    if truthy version_method then py_call version_method else mret PyNone.

(** [_CheckPythonModule(module_name, version_attribute_name,
    minimum_version, is_required, maximum_version, verbose_output)] *)
Definition _CheckPythonModule (env : Env) (module_name : string)
    (version_attribute_name minimum_version : option string)
    (is_required : bool) (maximum_version : option string)
    (verbose_output : bool) : run bool :=
  module_object ← _ImportPythonModule env module_name;
  if negb (truthy module_object) then
    if negb is_required then
      print ("[OPTIONAL]" +:+ tab +:+ "missing: " +:+ module_name +:+ ".");;
      mret true
    else
      print ("[FAILURE]" +:+ tab +:+ "missing: " +:+ module_name +:+ ".");;
      mret false
  else
  match nonempty version_attribute_name, nonempty minimum_version with
  | Some version_attribute_name, Some minimum_version =>
      module_version ← module_version_of env module_object version_attribute_name;
      if negb (truthy module_version) then
        print ("[FAILURE]" +:+ tab +:+ "unable to determine version information "
               +:+ "for: " +:+ module_name);;
        mret false
      else
      module_version ← py_format module_version;
      module_version_map ← version_map module_version;
      minimum_version_map ← version_map minimum_version;
      if list_lt module_version_map minimum_version_map then
        print ("[FAILURE]" +:+ tab +:+ module_name +:+ " version: "
               +:+ module_version +:+ " is too old, " +:+ minimum_version
               +:+ " or later " +:+ "required.");;
        mret false
      else
      let succeed : run bool :=
        (if verbose_output then
           print ("[OK]" +:+ tab +:+ tab +:+ module_name +:+ " version: "
                  +:+ module_version)
         else mret tt);;
        mret true in
      match nonempty maximum_version with
      | Some maximum_version =>
          maximum_version_map ← version_map maximum_version;
          if list_gt module_version_map maximum_version_map then
            print ("[FAILURE]" +:+ tab +:+ module_name +:+ " version: "
                   +:+ module_version +:+ " is too recent, "
                   +:+ maximum_version +:+ " or earlier " +:+ "required.");;
            mret false
          else succeed
      | None => succeed
      end
  | _, _ =>
      (if verbose_output then print ("[OK]" +:+ tab +:+ tab +:+ module_name)
       else mret tt);;
      mret true
  end.

(** [_VERSION_SPLIT_REGEX.split(v)] then [int] on every piece, for a value
    that was not made a text first: only a text can be split. *)
Definition version_map_of (v : pyval) : run (list Z) :=
  match v with
  | PyStr s => version_map s
  | _ => raise TypeError
  end.

(** [_CheckSQLite3(verbose_output)]. Where a line shows the version, the
    version went through the split and is a text. *)
Definition _CheckSQLite3 (env : Env) (verbose_output : bool) : run bool :=
  let module_name := "pysqlite2.dbapi2" in
  let minimum_version := "3.7.8" in
  module_object ← _ImportPythonModule env module_name;
  let module_name :=
    if negb (truthy module_object) then "sqlite3" else module_name in
  module_object ← _ImportPythonModule env module_name;
  if negb (truthy module_object) then
    print ("[FAILURE]" +:+ tab +:+ "missing: " +:+ module_name +:+ ".");;
    mret false
  else
  let module_version := getattr env module_object "sqlite_version" PyNone in
  if negb (truthy module_version) then mret false
  else
  module_version_map ← version_map_of module_version;
  minimum_version_map ← version_map minimum_version;
  if list_lt module_version_map minimum_version_map then
    print ("[FAILURE]" +:+ tab +:+ module_name +:+ " version: "
           +:+ py_str module_version +:+ " is too old, " +:+ minimum_version
           +:+ " or later " +:+ "required.");;
    mret false
  else
    (if verbose_output then
       print ("[OK]" +:+ tab +:+ tab +:+ module_name +:+ " version: "
              +:+ py_str module_version)
     else mret tt);;
    mret true.

(** Order of [sorted] on the items of a dictionary: keys are unique, so the
    module names decide. *)
Definition item_le (a b : string * version_tuple) : Prop := String.le a.1 b.1.

Global Instance item_le_dec : RelDecision item_le.
Proof. intros a b. unfold item_le. apply _. Defined.

(** [sorted(PYTHON_DEPENDENCIES.items())] *)
Definition sorted_items (PYTHON_DEPENDENCIES : gmap string version_tuple)
    : list (string * version_tuple) :=
  merge_sort item_le (map_to_list PYTHON_DEPENDENCIES).

(** One requirement handed to [_CheckPythonModule], as the loop does. *)
Definition check_item (env : Env) (verbose_output : bool)
    (item : string * version_tuple) : run bool :=
  let '(module_name, version_tuple) := item in
  _CheckPythonModule env module_name
    (version_attribute_name version_tuple) (minimum_version version_tuple)
    (is_required version_tuple) (maximum_version version_tuple) verbose_output.

(** The [for] loop of [CheckDependencies] over the sorted items. *)
Fixpoint check_loop (env : Env) (verbose_output : bool)
    (items : list (string * version_tuple)) (check_result : bool) : run bool :=
  match items with
  | [] => mret check_result
  | item :: items =>
      ok ← check_item env verbose_output item;
      check_loop env verbose_output items
        (if negb ok then false else check_result)
  end.

(** [CheckDependencies(verbose_output)]; the table [PYTHON_DEPENDENCIES] is
    filled in from a template and is an argument here. *)
Definition CheckDependencies (env : Env)
    (PYTHON_DEPENDENCIES : gmap string version_tuple)
    (verbose_output : bool) : run bool :=
  print "Checking availability and versions of dependencies.";;
  check_result ←
    check_loop env verbose_output (sorted_items PYTHON_DEPENDENCIES) true;
  ok ← _CheckSQLite3 env verbose_output;
  let check_result := if negb ok then false else check_result in
  (if check_result && negb verbose_output then print "[OK]" else mret tt);;
  print "";;
  mret check_result.

(** ** The outcomes of the design document *)

(** Status of a check outcome (design document, data model). *)
Inductive CheckStatus : Type :=
  | OK
  | OK_WITH_VERSION
  | OPTIONAL_MISSING
  | FAILURE_MISSING
  | FAILURE_VERSION_TOO_OLD
  | FAILURE_VERSION_TOO_NEW
  | FAILURE_VERSION_UNDETERMINED.

(** The outcomes that count as success. *)
Definition is_success (st : CheckStatus) : bool :=
  match st with
  | OK | OK_WITH_VERSION | OPTIONAL_MISSING => true
  | _ => false
  end.

(** The message template of each outcome (design document, external
    interfaces); [bound] is the declared minimum or maximum. *)
Definition status_line (st : CheckStatus) (module_name version bound : string)
    : string :=
  match st with
  | OPTIONAL_MISSING => "[OPTIONAL]" +:+ tab +:+ "missing: " +:+ module_name +:+ "."
  | FAILURE_MISSING => "[FAILURE]" +:+ tab +:+ "missing: " +:+ module_name +:+ "."
  | OK => "[OK]" +:+ tab +:+ tab +:+ module_name
  | FAILURE_VERSION_UNDETERMINED =>
      "[FAILURE]" +:+ tab +:+ "unable to determine version information for: "
      +:+ module_name
  | FAILURE_VERSION_TOO_OLD =>
      "[FAILURE]" +:+ tab +:+ module_name +:+ " version: " +:+ version
      +:+ " is too old, " +:+ bound +:+ " or later required."
  | FAILURE_VERSION_TOO_NEW =>
      "[FAILURE]" +:+ tab +:+ module_name +:+ " version: " +:+ version
      +:+ " is too recent, " +:+ bound +:+ " or earlier required."
  | OK_WITH_VERSION =>
      "[OK]" +:+ tab +:+ tab +:+ module_name +:+ " version: " +:+ version
  end.

(** Lexicographic order on version vectors, as the design document words
    it: the first component that differs decides, and a proper prefix is
    smaller. *)
Inductive lex_lt : list Z → list Z → Prop :=
  | lex_lt_prefix y w : lex_lt [] (y :: w)
  | lex_lt_head x y v w : x < y → lex_lt (x :: v) (y :: w)
  | lex_lt_tail x v w : lex_lt v w → lex_lt (x :: v) (x :: w).

(** What one check comes to: an uncaught exception, an outcome with the
    version and the bound that its line shows, or the answer false without
    any line. *)
Inductive verdict : Type :=
  | Aborted (e : exn)
  | Reported (st : CheckStatus) (version bound : string)
  | Unreported.

Definition is_ok (st : CheckStatus) : bool :=
  match st with
  | OK | OK_WITH_VERSION => true
  | _ => false
  end.

(** The run that a verdict stands for, after the trace [t] of the probe: the
    line of the outcome is printed, except the line of an OK outcome when
    the output is not verbose. *)
Definition verdict_run (verbose : bool) (module_name : string)
    (t : list event) (vd : verdict) : run bool :=
  match vd with
  | Aborted e => (t, Raise e)
  | Reported st version bound =>
      (t ++ (if is_ok st && negb verbose then []
             else [Print (status_line st module_name version bound)]),
       Return (is_success st))
  | Unreported => (t, Return false)
  end.

(** Lines 123 to 148 of [_CheckSQLite3]: the check of the candidate that
    was chosen, against the minimum version. *)
Definition check_candidate (env : Env) (module_name minimum_version : string)
    (verbose_output : bool) : run bool :=
  module_object ← _ImportPythonModule env module_name;
  if negb (truthy module_object) then
    print ("[FAILURE]" +:+ tab +:+ "missing: " +:+ module_name +:+ ".");;
    mret false
  else
  let module_version := getattr env module_object "sqlite_version" PyNone in
  if negb (truthy module_version) then mret false
  else
  module_version_map ← version_map_of module_version;
  minimum_version_map ← version_map minimum_version;
  if list_lt module_version_map minimum_version_map then
    print ("[FAILURE]" +:+ tab +:+ module_name +:+ " version: "
           +:+ py_str module_version +:+ " is too old, " +:+ minimum_version
           +:+ " or later " +:+ "required.");;
    mret false
  else
    (if verbose_output then
       print ("[OK]" +:+ tab +:+ tab +:+ module_name +:+ " version: "
              +:+ py_str module_version)
     else mret tt);;
    mret true.

(** The candidate that [_CheckSQLite3] settles on after its first probe. *)
Definition sqlite_candidate (first_probe : pyval) : string :=
  if negb (truthy first_probe) then "sqlite3" else "pysqlite2.dbapi2".

(** What a run does apart from printing: its imports and its result. *)
Definition quiet {A} (r : run A) : list string * result A :=
  (imported r.1, r.2).

(** The line of a module that is missing and not required. *)
Definition optional_line (line : string) : Prop :=
  ∃ module_name, line = status_line OPTIONAL_MISSING module_name "" "".

(** A line that reports the outcome of a check. *)
Definition is_status_line (line : string) : Prop :=
  ∃ st module_name version bound,
    line = status_line st module_name version bound.


(** The outcomes of the checks of a list of requirements, one after the
    other: each check returns, with its trace and its boolean. *)
Definition all_return (env : Env) (verbose : bool)
    (items : list (string * version_tuple))
    (outcomes : list (list event * bool)) : Prop :=
  Forall2 (λ item outcome,
             check_item env verbose item = (outcome.1, Return outcome.2))
          items outcomes.

Definition check_header : string :=
  "Checking availability and versions of dependencies.".

(** The attribute reached from [obj] along [names] when every link is
    there; [None] as soon as one is missing. *)
Fixpoint resolve (env : Env) (obj : pyval) (names : list string)
    : option pyval :=
  match names with
  | [] => Some obj
  | name :: rest =>
      match attr_lookup env obj name with
      | Some next => resolve env next rest
      | None => None
      end
  end.

(** ** Hosts to run the checks on *)

(** The outcome of importing [name] in a table of modules; a name that is
    not listed fails with [ImportError]. *)
Fixpoint find_module (name : string) (modules : list (string * result pyval))
    : result pyval :=
  match modules with
  | [] => Raise ImportError
  | (known, outcome) :: rest =>
      if String.eqb known name then outcome else find_module name rest
  end.

(** A host where importing a name does what the table says; builtin values
    expose nothing. *)
Definition host (modules : list (string * result pyval)) : Env := {|
  import_ := λ name, find_module name modules;
  builtin_attr := λ _ _, None
|}.

(** The same host on an interpreter whose [None] exposes the class it is
    an instance of, as CPython's does. *)
Definition host_None_class (modules : list (string * result pyval)) : Env := {|
  import_ := λ name, find_module name modules;
  builtin_attr := λ value name,
    match value with
    | PyNone =>
        if String.eqb name "__class__"
        then Some (PyObject [("__name__", PyStr "NoneType")])
        else None
    | _ => None
    end
|}.

(** A module object that reports its version in an attribute. *)
Definition module_with (attribute version : string) : pyval :=
  PyObject [(attribute, PyStr version)].

(** A requirement on the attribute [__version__] with a minimum and no
    maximum. *)
Definition at_least (minimum : string) (required : bool) : version_tuple := {|
  version_attribute_name := Some "__version__";
  minimum_version := Some minimum;
  maximum_version := None;
  is_required := required
|}.

(** A host with the module [widget] at version 1.2.0 and the standard
    [sqlite3] module. *)
Definition widget_host : Env :=
  host [("widget", Return (module_with "__version__" "1.2.0"));
        ("sqlite3", Return (module_with "sqlite_version" "3.40.1"))].

(** ** Computations *)

Lemma bind_Return {A B} (t : list event) (a : A) (f : A → run B) :
  (t, Return a) ≫= f = (t ++ (f a).1, (f a).2).
Proof. unfold mbind, run_bind. by destruct (f a). Qed.

Lemma bind_Raise {A B} (t : list event) (e : exn) (f : A → run B) :
  (t, Raise e) ≫= f = (t, Raise e).
Proof. done. Qed.

Lemma printed_app (t1 t2 : list event) :
  printed (t1 ++ t2) = printed t1 ++ printed t2.
Proof. apply omap_app. Qed.

Lemma imported_app (t1 t2 : list event) :
  imported (t1 ++ t2) = imported t1 ++ imported t2.
Proof. apply omap_app. Qed.

Lemma check_absent (env : Env) (module_name : string)
    (attr minv maxv : option string) (is_required verbose : bool)
    (t : list event) (absent : pyval) :
  _ImportPythonModule env module_name = (t, Return absent) →
  truthy absent = false →
  _CheckPythonModule env module_name attr minv is_required maxv verbose =
    if is_required
    then (t ++ [Print (status_line FAILURE_MISSING module_name "" "")],
          Return false)
    else (t ++ [Print (status_line OPTIONAL_MISSING module_name "" "")],
          Return true).
Proof.
  intros Hprobe Hfalse. unfold _CheckPythonModule.
  rewrite Hprobe, bind_Return, Hfalse. by destruct is_required.
Qed.

Lemma check_probe_raises (env : Env) (module_name : string)
    (attr minv maxv : option string) (is_required verbose : bool)
    (t : list event) (e : exn) :
  _ImportPythonModule env module_name = (t, Raise e) →
  _CheckPythonModule env module_name attr minv is_required maxv verbose =
    (t, Raise e).
Proof. intros Hprobe. unfold _CheckPythonModule. by rewrite Hprobe. Qed.

(** C1: when the probe of the module yields nothing (a false value, as
    [None]), the check prints the line of OPTIONAL_MISSING and returns true
    for a requirement that is not required, and prints the line of
    FAILURE_MISSING and returns false for a required one. *)
Theorem check_missing_module (env : Env) (module_name : string)
    (attr minv maxv : option string) (is_required verbose : bool)
    (t : list event) (absent : pyval) :
  _ImportPythonModule env module_name = (t, Return absent) →
  truthy absent = false →
  _CheckPythonModule env module_name attr minv is_required maxv verbose =
    if is_required
    then (t ++ [Print (status_line FAILURE_MISSING module_name "" "")],
          Return false)
    else (t ++ [Print (status_line OPTIONAL_MISSING module_name "" "")],
          Return true).
Proof.
  intros Hprobe Habsent. unfold _CheckPythonModule.
  rewrite Hprobe, bind_Return. cbn beta.
  rewrite Habsent. cbn [negb].
  destruct is_required; cbn [negb]; unfold print;
    by rewrite bind_Return.
Qed.

Lemma check_missing_module_witness :
  _CheckPythonModule (host []) "widget" (Some "__version__") (Some "1.2.0")
    false None false
  = ([Import "widget"; Print (status_line OPTIONAL_MISSING "widget" "" "")],
     Return true)
  ∧ _CheckPythonModule (host []) "widget" (Some "__version__") (Some "1.2.0")
      true None false
    = ([Import "widget"; Print (status_line FAILURE_MISSING "widget" "" "")],
       Return false).
Proof.
  split.
  - exact (check_missing_module (host []) "widget" (Some "__version__")
             (Some "1.2.0") None false false [Import "widget"] PyNone
             eq_refl eq_refl).
  - exact (check_missing_module (host []) "widget" (Some "__version__")
             (Some "1.2.0") None true false [Import "widget"] PyNone
             eq_refl eq_refl).
Defined.

(** ** Version vectors and their order *)

Lemma list_lt_lex (v w : list Z) : list_lt v w = true ↔ lex_lt v w.
Proof.
  revert w. induction v as [|x v IH]; intros [|y w]; simpl.
  - split; [done | inversion 1].
  - split; [constructor | done].
  - split; [done | inversion 1].
  - destruct (Z.eqb_spec x y) as [->|Hne].
    + rewrite IH. split; [by constructor|].
      inversion 1; subst; [lia | done].
    + rewrite Z.ltb_lt. split; [by constructor|].
      inversion 1; subst; [done | congruence].
Qed.

Lemma list_gt_lt (v w : list Z) : list_gt v w = list_lt w v.
Proof.
  revert w. induction v as [|x v IH]; intros [|y w]; simpl; try done.
  rewrite (Z.eqb_sym y x). destruct (x =? y); [done|].
  by rewrite Z.gtb_ltb.
Qed.

Lemma lex_lt_irrefl (v : list Z) : ¬ lex_lt v v.
Proof. induction v as [|x v IH]; inversion 1; subst; [lia | done]. Qed.

Lemma lex_lt_extend (v : list Z) (x : Z) (rest : list Z) :
  lex_lt v (v ++ x :: rest).
Proof. induction v as [|y v IH]; simpl; by constructor. Qed.

(** ** Splitting and reading version texts *)

Lemma split_on_nonempty (is_sep : ascii → bool) (s : string) :
  split_on is_sep s ≠ [].
Proof.
  induction s as [|c s IH]; simpl; [done|].
  destruct (is_sep c); [done|]. by destruct (split_on is_sep s).
Qed.

Lemma split_on_join (is_sep : ascii → bool) (a b : string) (c : ascii) :
  is_sep c = true →
  split_on is_sep (a +:+ String c b) = split_on is_sep a ++ split_on is_sep b.
Proof.
  intros Hc. unfold String.app.
  induction a as [|d a IH]; simpl; [by rewrite Hc|].
  rewrite IH. destruct (is_sep d); [done|].
  pose proof (split_on_nonempty is_sep a).
  by destruct (split_on is_sep a).
Qed.

Lemma split_on_pieces (is_sep : ascii → bool) (s : string) (c : ascii) :
  is_sep c = true →
  Forall (λ piece, contains c piece = false) (split_on is_sep s).
Proof.
  intros Hc. induction s as [|d s IH]; simpl; [by repeat constructor|].
  destruct (is_sep d) eqn:Hd; [by constructor|].
  pose proof (split_on_nonempty is_sep s) as Hne.
  destruct (split_on is_sep s) as [|piece pieces]; [done|].
  apply Forall_cons in IH as [Hpiece Hpieces]. constructor; [|done].
  simpl. rewrite Hpiece, orb_false_r.
  destruct (Ascii.eqb_spec c d) as [->|]; [congruence | done].
Qed.

Lemma mapM_app_Some {A B} (f : A → option B) (l1 l2 : list A) (k : list B) :
  mapM f (l1 ++ l2) = Some k ↔
  ∃ k1 k2, mapM f l1 = Some k1 ∧ mapM f l2 = Some k2 ∧ k = k1 ++ k2.
Proof.
  rewrite mapM_Some. split.
  - intros (k1 & k2 & H1 & H2 & ->)%Forall2_app_inv_l.
    exists k1, k2. by rewrite !mapM_Some.
  - intros (k1 & k2 & H1%mapM_Some & H2%mapM_Some & ->).
    by apply Forall2_app.
Qed.

Lemma mapM_app {A B} (f : A → option B) (l1 l2 : list A) :
  mapM f (l1 ++ l2)
  = k1 ← mapM f l1; k2 ← mapM f l2; Some (k1 ++ k2).
Proof.
  induction l1 as [|x l1 IH]; simpl.
  - by destruct (mapM f l2).
  - destruct (f x) as [y|]; simpl; [|done]. rewrite IH.
    destruct (mapM f l1) as [k1|]; simpl; [|done].
    by destruct (mapM f l2).
Qed.

Lemma Parse_join (a b : string) (c : ascii) :
  _VERSION_SPLIT_REGEX c = true →
  Parse (a +:+ String c b) = va ← Parse a; vb ← Parse b; Some (va ++ vb).
Proof.
  intros Hc. unfold Parse. by rewrite split_on_join, mapM_app.
Qed.

Lemma Parse_empty : Parse "" = None.
Proof. reflexivity. Qed.

Lemma contains_rev_app (c : ascii) (s1 s2 : string) :
  contains c (String.rev_app s1 s2) = contains c s1 || contains c s2.
Proof.
  revert s2. induction s1 as [|d s1 IH]; intros s2; simpl; [done|].
  rewrite IH. simpl. by destruct (Ascii.eqb c d), (contains c s1).
Qed.

Lemma contains_lstrip (c : ascii) (s : string) :
  contains c s = false → contains c (lstrip s) = false.
Proof.
  induction s as [|d s IH]; simpl; [done|].
  intros [Hd Hs]%orb_false_iff. destruct (is_whitespace d); [auto|].
  simpl. by rewrite Hd, Hs.
Qed.

Lemma contains_strip (c : ascii) (s : string) :
  contains c s = false → contains c (strip s) = false.
Proof.
  intros Hs. unfold strip, String.rev.
  rewrite contains_rev_app, orb_false_r. apply contains_lstrip.
  rewrite contains_rev_app, orb_false_r. by apply contains_lstrip.
Qed.

Lemma rev_app_rev_app (s1 s2 s3 : string) :
  String.rev_app (String.rev_app s1 s2) s3
  = String.rev_app s2 (String.append s1 s3).
Proof.
  revert s2. induction s1 as [|c s1 IH]; intros s2; simpl; [done|].
  by rewrite IH.
Qed.

Lemma string_app_empty_r (s : string) : String.append s "" = s.
Proof. unfold String.app. induction s; simpl; congruence. Qed.

Lemma lstrip_id (s : string) :
  (∀ c, contains c s = true → is_whitespace c = false) → lstrip s = s.
Proof.
  destruct s as [|c s]; simpl; [done|]. intros Hs.
  rewrite (Hs c); [done|]. by rewrite Ascii.eqb_refl.
Qed.

Lemma strip_id (s : string) :
  (∀ c, contains c s = true → is_whitespace c = false) → strip s = s.
Proof.
  intros Hs. unfold strip. rewrite (lstrip_id s Hs).
  rewrite lstrip_id.
  - unfold String.rev. rewrite rev_app_rev_app. simpl.
    apply string_app_empty_r.
  - intros c. unfold String.rev. rewrite contains_rev_app, orb_false_r.
    apply Hs.
Qed.

Lemma split_on_whole (is_sep : ascii → bool) (s : string) :
  (∀ c, contains c s = true → is_sep c = false) → split_on is_sep s = [s].
Proof.
  induction s as [|d s IH]; simpl; [done|]. intros Hs.
  rewrite (Hs d) by (by rewrite Ascii.eqb_refl).
  rewrite IH; [done|]. intros c Hc. apply Hs. by rewrite Hc, orb_true_r.
Qed.

Lemma is_digit_plain (c : ascii) :
  is_digit c = true →
  is_whitespace c = false ∧ _VERSION_SPLIT_REGEX c = false
  ∧ Ascii.eqb c "+" = false ∧ Ascii.eqb c "-" = false.
Proof.
  destruct c as [[] [] [] [] [] [] [] []]; by intros [=].
Qed.

Lemma uint_digits (d : Decimal.uint) (c : ascii) :
  contains c (NilEmpty.string_of_uint d) = true → is_digit c = true.
Proof.
  induction d; simpl; [done|..];
    (intros [Hc%Ascii.eqb_eq | Hc]%orb_true_iff; [by subst | by apply IHd]).
Qed.

Ltac digit_literal :=
  match goal with
  | |- context [digit_value ?c] =>
      let value := eval vm_compute in (digit_value c) in
      change (digit_value c) with value
  end.

Lemma digits_value_uint_acc (d : Decimal.uint) (acc : positive) :
  digits_value (Z.pos acc) true (NilEmpty.string_of_uint d)
  = Some (Z.pos (Pos.of_uint_acc d acc)).
Proof.
  revert acc. induction d; intros acc;
    cbn [NilEmpty.string_of_uint digits_value Pos.of_uint_acc]; [done|..];
    change (is_digit _) with true; cbn iota; rewrite <- IHd; f_equal;
    digit_literal; lia.
Qed.

Lemma digits_value_uint (d : Decimal.uint) (after_digit : bool) :
  d ≠ Decimal.Nil →
  digits_value 0 after_digit (NilEmpty.string_of_uint d)
  = Some (Z.of_N (Pos.of_uint d)).
Proof.
  revert after_digit. induction d; intros after_digit Hd; [done|..];
    cbn [NilEmpty.string_of_uint digits_value Pos.of_uint Z.of_N];
    change (is_digit _) with true; cbn iota;
    try (rewrite <- digits_value_uint_acc; f_equal; digit_literal; lia).
  change (10 * 0 + digit_value "0") with 0.
  destruct d; [done|..]; by apply IHd.
Qed.

Lemma digit_count_nonneg (s : string) : 0 ≤ digit_count s.
Proof. induction s as [|c s IH]; simpl; [done|]. destruct (is_digit c); lia. Qed.

Lemma numeral_pos (p : positive) :
  numeral (Z.pos p) = NilEmpty.string_of_uint (Pos.to_uint p).
Proof.
  unfold numeral. cbn [Z.to_int NilZero.string_of_int].
  unfold NilZero.string_of_uint.
  pose proof (DecimalPos.Unsigned.to_uint_nonnil p) as Hnonnil.
  by destruct (Pos.to_uint p).
Qed.

Lemma numeral_neg (p : positive) :
  numeral (Z.neg p) = String "-" (numeral (Z.pos p)).
Proof. reflexivity. Qed.

Lemma numeral_digits (p : positive) (c : ascii) :
  contains c (numeral (Z.pos p)) = true → is_digit c = true.
Proof. rewrite numeral_pos. apply uint_digits. Qed.

Lemma digits_value_numeral (p : positive) :
  digits_value 0 false (numeral (Z.pos p)) = Some (Z.pos p).
Proof.
  rewrite numeral_pos.
  rewrite digits_value_uint by apply DecimalPos.Unsigned.to_uint_nonnil.
  by rewrite DecimalPos.Unsigned.of_to.
Qed.

Lemma py_int_unsigned (s : string) :
  (∀ c, contains c s = true → is_digit c = true) →
  py_int s = py_int_digits s.
Proof.
  intros Hdigits. unfold py_int.
  rewrite strip_id by (intros c Hc; by apply is_digit_plain, Hdigits).
  destruct s as [|c body]; [done|].
  destruct (is_digit_plain c) as (_ & _ & Hplus & Hminus).
  { apply Hdigits. simpl. by rewrite Ascii.eqb_refl. }
  destruct c as [[] [] [] [] [] [] [] []]; done.
Qed.

Lemma py_int_numeral (p : positive) :
  py_int (numeral (Z.pos p))
  = if digit_count (numeral (Z.pos p)) >? int_max_str_digits then None
    else Some (Z.pos p).
Proof.
  rewrite py_int_unsigned by apply numeral_digits.
  unfold py_int_digits. by rewrite digits_value_numeral.
Qed.

Lemma Parse_numeral (n : Z) :
  Parse (numeral n)
  = if (n <? 0) || (digit_count (numeral n) >? int_max_str_digits) then None
    else Some [n].
Proof.
  destruct n as [|p|p]; [done| |].
  - unfold Parse. rewrite split_on_whole
      by (intros c Hc; by apply is_digit_plain, (numeral_digits p)).
    cbn [mapM orb Z.ltb Z.compare]. rewrite py_int_numeral.
    by destruct (_ >? _).
  - rewrite numeral_neg.
    change (String "-" ?b) with ("" +:+ String "-" b).
    by rewrite (Parse_join "" _ "-" eq_refl).
Qed.

(** A text that [int] accepts, and so a version text that parses, is
    ASCII. *)
Lemma ascii_text_chars (s : string) :
  ascii_text s = true ↔
  ∀ c, contains c s = true → Nat.ltb (nat_of_ascii c) 128 = true.
Proof.
  induction s as [|d s IH]; simpl; [done|].
  rewrite andb_true_iff, IH. split.
  - intros [Hd Hs] c [Hc%Ascii.eqb_eq | Hc]%orb_true_iff; [by subst | auto].
  - intros Hall. split; [apply Hall; by rewrite Ascii.eqb_refl|].
    intros c Hc. apply Hall. by rewrite Hc, orb_true_r.
Qed.

Lemma contains_lstrip_inv (c : ascii) (s : string) :
  contains c s = true → is_whitespace c = true ∨ contains c (lstrip s) = true.
Proof.
  induction s as [|d s IH]; simpl; [done|].
  intros [Hc%Ascii.eqb_eq | Hc]%orb_true_iff.
  - subst d. destruct (is_whitespace c); [by left | right].
    simpl. by rewrite Ascii.eqb_refl.
  - destruct (is_whitespace d); [auto | right].
    simpl. by rewrite Hc, orb_true_r.
Qed.

Lemma contains_strip_inv (c : ascii) (s : string) :
  contains c s = true → is_whitespace c = true ∨ contains c (strip s) = true.
Proof.
  intros [? | Hc]%contains_lstrip_inv; [by left|].
  unfold strip, String.rev. rewrite contains_rev_app, orb_false_r.
  apply contains_lstrip_inv. by rewrite contains_rev_app, orb_false_r.
Qed.

Lemma digits_value_chars (acc : Z) (after_digit : bool) (s : string) (n : Z)
    (c : ascii) :
  digits_value acc after_digit s = Some n → contains c s = true →
  is_digit c = true ∨ c = "_"%char.
Proof.
  revert acc after_digit. induction s as [|d s IH]; intros acc after_digit;
    simpl; [done|].
  intros Hvalue [Hc%Ascii.eqb_eq | Hc]%orb_true_iff.
  - subst d. destruct (is_digit c); [by left|].
    destruct (Ascii.eqb_spec c "_"); [by right | done].
  - destruct (is_digit d); [by eapply IH|].
    destruct (_ && _); [by eapply IH | done].
Qed.

Lemma literal_char_ascii (c : ascii) :
  is_whitespace c = true ∨ is_digit c = true ∨ c = "_"%char ∨ c = "+"%char
  ∨ c = "-"%char ∨ _VERSION_SPLIT_REGEX c = true →
  Nat.ltb (nat_of_ascii c) 128 = true.
Proof.
  destruct c as [[] [] [] [] [] [] [] []]; try reflexivity;
    by intros [? | [? | [? | [? | [? | ?]]]]].
Qed.

Lemma py_int_chars (token : string) (n : Z) (c : ascii) :
  py_int token = Some n → contains c token = true →
  is_whitespace c = true ∨ is_digit c = true ∨ c = "_"%char ∨ c = "+"%char
  ∨ c = "-"%char.
Proof.
  intros Hint [? | Hc]%contains_strip_inv; [by left | right].
  unfold py_int in Hint.
  assert (Hbody : ∀ r k, py_int_digits r = Some k → contains c r = true →
            is_digit c = true ∨ c = "_"%char).
  { intros r k. unfold py_int_digits. destruct (_ >? _); [done|].
    apply digits_value_chars. }
  destruct (strip token) as [|d body]; [done|].
  destruct (Ascii.eqb_spec d "+") as [->|Hplus].
  { simpl in Hc. apply orb_true_iff in Hc as [->%Ascii.eqb_eq | Hc]; [tauto|].
    destruct (Hbody _ _ Hint Hc); tauto. }
  destruct (Ascii.eqb_spec d "-") as [->|Hminus].
  { simpl in Hc. apply orb_true_iff in Hc as [->%Ascii.eqb_eq | Hc]; [tauto|].
    destruct (py_int_digits body) as [k|] eqn:Hk; [|done].
    destruct (Hbody _ _ Hk Hc); tauto. }
  assert (Hwhole : py_int_digits (String d body) = Some n)
    by (by destruct d as [[] [] [] [] [] [] [] []]).
  destruct (Hbody _ _ Hwhole Hc); tauto.
Qed.

Lemma py_int_ascii (token : string) (n : Z) :
  py_int token = Some n → ascii_text token = true.
Proof.
  intros Hint. apply ascii_text_chars. intros c Hc.
  apply literal_char_ascii.
  destruct (py_int_chars _ _ _ Hint Hc) as [? | [? | [? | [? | ?]]]]; tauto.
Qed.

Lemma split_on_chars (is_sep : ascii → bool) (s : string) (c : ascii) :
  contains c s = true →
  is_sep c = true
  ∨ ∃ piece, piece ∈ split_on is_sep s ∧ contains c piece = true.
Proof.
  induction s as [|d s IH]; simpl; [done|].
  pose proof (split_on_nonempty is_sep s) as Hne.
  intros [Hc%Ascii.eqb_eq | Hc]%orb_true_iff.
  - subst d. destruct (is_sep c); [by left | right].
    destruct (split_on is_sep s) as [|piece pieces]; [done|].
    exists (String c piece). split; [left|].
    simpl. by rewrite Ascii.eqb_refl.
  - destruct (IH Hc) as [? | (piece & Hin & Hpiece)]; [by left | right].
    destruct (is_sep d); [exists piece; split; [by right | done]|].
    destruct (split_on is_sep s) as [|first pieces]; [done|].
    apply elem_of_cons in Hin as [-> | Hin].
    + exists (String d first). split; [left|].
      simpl. by rewrite Hpiece, orb_true_r.
    + exists piece. split; [by right | done].
Qed.

Lemma Parse_ascii (raw : string) (v : list Z) :
  Parse raw = Some v → ascii_text raw = true.
Proof.
  unfold Parse. intros Hparse%mapM_Some. apply ascii_text_chars. intros c Hc.
  destruct (split_on_chars _VERSION_SPLIT_REGEX raw c Hc)
    as [Hsep | (piece & Hin & Hpiece)]; [apply literal_char_ascii; tauto|].
  induction Hparse as [|first n pieces v Hn _ IH];
    [by apply elem_of_nil in Hin|].
  apply elem_of_cons in Hin as [-> | Hin]; [|by apply IH].
  apply py_int_ascii in Hn. by apply (proj1 (ascii_text_chars first) Hn).
Qed.

(** ** The check of a module that is present *)

Lemma bind_mret {A B} (a : A) (f : A → run B) : mret a ≫= f = f a.
Proof. unfold mret, run_ret. rewrite bind_Return. by destruct (f a). Qed.

Lemma version_map_Some (raw : string) (v : list Z) :
  Parse raw = Some v → version_map raw = ([], Return v).
Proof. unfold version_map. by intros ->. Qed.

Lemma version_map_None (raw : string) :
  Parse raw = None → version_map raw = ([], Raise ValueError).
Proof. unfold version_map. by intros ->. Qed.

Lemma of_uint_acc_bounds (d : Decimal.uint) (acc : positive) :
  Z.pos acc * 10 ^ digit_count (NilEmpty.string_of_uint d)
  ≤ Z.pos (Pos.of_uint_acc d acc)
  < (Z.pos acc + 1) * 10 ^ digit_count (NilEmpty.string_of_uint d).
Proof.
  revert acc. induction d; intros acc;
    cbn [NilEmpty.string_of_uint digit_count Pos.of_uint_acc];
    [rewrite Z.pow_0_r; lia|..];
    change (if is_digit _ then 1 else 0) with 1;
    rewrite Z.pow_add_r by (pose proof (digit_count_nonneg
      (NilEmpty.string_of_uint d)); lia);
    change (10 ^ 1) with 10;
    match goal with
    | |- context [Pos.of_uint_acc d ?acc'] => specialize (IHd acc')
    end;
    pose proof (Z.pow_pos_nonneg 10 (digit_count (NilEmpty.string_of_uint d))
                  ltac:(lia) (digit_count_nonneg _)); nia.
Qed.

Lemma numeral_bounds (p : positive) :
  10 ^ (digit_count (numeral (Z.pos p)) - 1) ≤ Z.pos p
  < 10 ^ digit_count (numeral (Z.pos p)).
Proof.
  rewrite numeral_pos.
  pose proof (DecimalPos.Unsigned.of_to p) as Hof.
  assert (Hhead : Pos.to_uint p = Decimal.nzhead (Pos.to_uint p)).
  { pose proof (DecimalPos.Unsigned.to_of (Pos.to_uint p)) as Hto.
    rewrite Hof in Hto. cbn [N.to_uint] in Hto.
    rewrite DecimalFacts.unorm_nzhead in Hto; [done|].
    intros Hnil. apply DecimalFacts.unorm_0 in Hnil.
    rewrite <- Hto in Hnil.
    by apply (DecimalPos.Unsigned.to_uint_nonzero p). }
  destruct (Pos.to_uint p) as [|d|d|d|d|d|d|d|d|d|d] eqn:Hd; [done|..];
    [by destruct (DecimalFacts.nzhead_nonzero (Decimal.D0 d) d)|..];
    cbn [Pos.of_uint] in Hof; injection Hof as <-;
    cbn [NilEmpty.string_of_uint digit_count];
    change (if is_digit _ then 1 else 0) with 1;
    match goal with
    | |- context [Pos.of_uint_acc d ?acc] =>
        pose proof (of_uint_acc_bounds d acc) as Hbounds
    end;
    pose proof (digit_count_nonneg (NilEmpty.string_of_uint d)) as Hcount;
    replace (1 + digit_count (NilEmpty.string_of_uint d) - 1)
      with (digit_count (NilEmpty.string_of_uint d)) by lia;
    rewrite Z.pow_add_r by lia; change (10 ^ 1) with 10;
    pose proof (Z.pow_pos_nonneg 10 (digit_count (NilEmpty.string_of_uint d))
                  ltac:(lia) Hcount); nia.
Qed.

Lemma numeral_fits (p : positive) (m : Z) :
  digit_count (numeral (Z.pos p)) ≤ m ↔ Z.pos p < 10 ^ m.
Proof.
  pose proof (numeral_bounds p) as [Hlow Hhigh].
  pose proof (digit_count_nonneg (numeral (Z.pos p))) as Hcount.
  split.
  - intros Hm. eapply Z.lt_le_trans; [exact Hhigh|].
    apply Z.pow_le_mono_r; lia.
  - intros Hp. destruct (Z_le_gt_dec (digit_count (numeral (Z.pos p))) m)
      as [|Hgt]; [done|]. exfalso.
    destruct (Z_lt_le_dec m 0) as [Hneg|Hnonneg].
    + rewrite Z.pow_neg_r in Hp by done. lia.
    + assert (10 ^ m ≤ 10 ^ (digit_count (numeral (Z.pos p)) - 1))
        by (apply Z.pow_le_mono_r; lia).
      lia.
Qed.

Lemma format_text (mv : pyval) (v : list Z) :
  Parse (py_str mv) = Some v → py_format mv = mret (py_str mv).
Proof.
  destruct mv as [|s|n|attrs|r|e|truth text]; try done.
  cbn [py_format py_str]. rewrite Parse_numeral.
  destruct (_ >? _); [|done]. by rewrite orb_true_r.
Qed.

Lemma format_raises {B} (mv : pyval) (k : string → list Z → run B) :
  Parse (py_str mv) = None →
  (s ← py_format mv; v ← version_map s; k s v) = ([], Raise ValueError).
Proof.
  intros Hv.
  assert (Hthen : (s ← mret (py_str mv); v ← version_map s; k s v)
                  = ([], Raise ValueError))
    by (by rewrite bind_mret, (version_map_None _ Hv)).
  destruct mv as [|s|n|attrs|r|e|truth text]; try done.
  cbn [py_format]. by destruct (_ >? _).
Qed.

Ltac run_steps :=
  repeat first
    [ rewrite bind_Return | rewrite bind_Raise | rewrite bind_mret
    | progress cbn beta iota delta [fst snd negb] ].

Section present_module.
Context (env : Env) (module_name : string) (attr minv maxv : option string).
Context (is_required verbose : bool).
Context (t : list event) (module_object : pyval) (a m : string).
Hypothesis Hprobe : _ImportPythonModule env module_name = (t, Return module_object).
Hypothesis Hpresent : truthy module_object = true.
Hypothesis Hattr : nonempty attr = Some a.
Hypothesis Hmin : nonempty minv = Some m.

Local Abbreviation check :=
  (_CheckPythonModule env module_name attr minv is_required maxv verbose).

Lemma check_version_raises (t' : list event) (e : exn) :
  module_version_of env module_object a = (t', Raise e) →
  check = (t ++ t', Raise e).
Proof.
  intros Hver. unfold _CheckPythonModule.
  rewrite Hprobe, bind_Return, Hpresent. cbn [negb].
  by rewrite Hattr, Hmin, Hver.
Qed.

Lemma check_undetermined (t' : list event) (mv : pyval) :
  module_version_of env module_object a = (t', Return mv) →
  truthy mv = false →
  check = (t ++ t' ++ [Print (status_line FAILURE_VERSION_UNDETERMINED
                                module_name "" "")], Return false).
Proof.
  intros Hver Hmv. unfold _CheckPythonModule.
  rewrite Hprobe, bind_Return, Hpresent. cbn [negb].
  by rewrite Hattr, Hmin, Hver, bind_Return, Hmv.
Qed.

Context (t' : list event) (mv : pyval).
Hypothesis Hver : module_version_of env module_object a = (t', Return mv).
Hypothesis Hdetermined : truthy mv = true.

Lemma check_malformed_version :
  Parse (py_str mv) = None → check = (t ++ t', Raise ValueError).
Proof.
  intros Hv. unfold _CheckPythonModule.
  rewrite Hprobe, bind_Return, Hpresent. cbn [negb].
  rewrite Hattr, Hmin, Hver, bind_Return, Hdetermined. cbn [negb].
  rewrite (format_raises _ _ Hv). cbn [fst snd]. by rewrite !app_nil_r.
Qed.

Context (v : list Z).
Hypothesis Hv : Parse (py_str mv) = Some v.

Lemma check_malformed_minimum :
  Parse m = None → check = (t ++ t', Raise ValueError).
Proof.
  intros Hm. unfold _CheckPythonModule.
  rewrite Hprobe, bind_Return, Hpresent. cbn [negb].
  rewrite Hattr, Hmin, Hver, bind_Return, Hdetermined. cbn [negb].
  rewrite (format_text _ _ Hv), bind_mret. cbn beta.
  rewrite (version_map_Some _ _ Hv), (version_map_None _ Hm).
  run_steps. by rewrite !app_nil_r.
Qed.

Context (ms : list Z).
Hypothesis Hm : Parse m = Some ms.

Lemma check_too_old :
  list_lt v ms = true →
  check = (t ++ t' ++ [Print (status_line FAILURE_VERSION_TOO_OLD module_name
                                (py_str mv) m)], Return false).
Proof.
  intros Hlt. unfold _CheckPythonModule.
  rewrite Hprobe, bind_Return, Hpresent. cbn [negb].
  rewrite Hattr, Hmin, Hver, bind_Return, Hdetermined. cbn [negb].
  rewrite (format_text _ _ Hv), bind_mret. cbn beta.
  rewrite (version_map_Some _ _ Hv), (version_map_Some _ _ Hm).
  run_steps. by rewrite Hlt.
Qed.

Hypothesis Hlt : list_lt v ms = false.

Lemma check_unbounded :
  nonempty maxv = None →
  check = (t ++ t' ++ (if verbose
                       then [Print (status_line OK_WITH_VERSION module_name
                                      (py_str mv) "")]
                       else []), Return true).
Proof.
  intros Hmax. unfold _CheckPythonModule.
  rewrite Hprobe, bind_Return, Hpresent. cbn [negb].
  rewrite Hattr, Hmin, Hver, bind_Return, Hdetermined. cbn [negb].
  rewrite (format_text _ _ Hv), bind_mret. cbn beta.
  rewrite (version_map_Some _ _ Hv), (version_map_Some _ _ Hm).
  run_steps. rewrite Hlt, Hmax. by destruct verbose.
Qed.

Context (x : string).
Hypothesis Hmax : nonempty maxv = Some x.

Lemma check_malformed_maximum :
  Parse x = None → check = (t ++ t', Raise ValueError).
Proof.
  intros Hx. unfold _CheckPythonModule.
  rewrite Hprobe, bind_Return, Hpresent. cbn [negb].
  rewrite Hattr, Hmin, Hver, bind_Return, Hdetermined. cbn [negb].
  rewrite (format_text _ _ Hv), bind_mret. cbn beta.
  rewrite (version_map_Some _ _ Hv), (version_map_Some _ _ Hm).
  run_steps. rewrite Hlt, Hmax, (version_map_None _ Hx).
  run_steps. by rewrite !app_nil_r.
Qed.

Context (xs : list Z).
Hypothesis Hx : Parse x = Some xs.

Lemma check_too_recent :
  list_gt v xs = true →
  check = (t ++ t' ++ [Print (status_line FAILURE_VERSION_TOO_NEW module_name
                                (py_str mv) x)], Return false).
Proof.
  intros Hgt. unfold _CheckPythonModule.
  rewrite Hprobe, bind_Return, Hpresent. cbn [negb].
  rewrite Hattr, Hmin, Hver, bind_Return, Hdetermined. cbn [negb].
  rewrite (format_text _ _ Hv), bind_mret. cbn beta.
  rewrite (version_map_Some _ _ Hv), (version_map_Some _ _ Hm).
  run_steps. rewrite Hlt, Hmax, (version_map_Some _ _ Hx).
  run_steps. by rewrite Hgt.
Qed.

Lemma check_within_bounds :
  list_gt v xs = false →
  check = (t ++ t' ++ (if verbose
                       then [Print (status_line OK_WITH_VERSION module_name
                                      (py_str mv) "")]
                       else []), Return true).
Proof.
  intros Hgt. unfold _CheckPythonModule.
  rewrite Hprobe, bind_Return, Hpresent. cbn [negb].
  rewrite Hattr, Hmin, Hver, bind_Return, Hdetermined. cbn [negb].
  rewrite (format_text _ _ Hv), bind_mret. cbn beta.
  rewrite (version_map_Some _ _ Hv), (version_map_Some _ _ Hm).
  run_steps. rewrite Hlt, Hmax, (version_map_Some _ _ Hx).
  run_steps. rewrite Hgt. by destruct verbose.
Qed.

End present_module.

Lemma check_presence_only (env : Env) (module_name : string)
    (attr minv maxv : option string) (is_required verbose : bool)
    (t : list event) (module_object : pyval) :
  _ImportPythonModule env module_name = (t, Return module_object) →
  truthy module_object = true →
  nonempty attr = None ∨ nonempty minv = None →
  _CheckPythonModule env module_name attr minv is_required maxv verbose =
    (t ++ (if verbose then [Print (status_line OK module_name "" "")] else []),
     Return true).
Proof.
  intros Hprobe Hpresent Hempty. unfold _CheckPythonModule.
  rewrite Hprobe, bind_Return, Hpresent. cbn [negb].
  destruct Hempty as [-> | ->]; [|destruct (nonempty attr)];
    by destruct verbose.
Qed.

(** ** The order of versions *)

Lemma string_app_inv_head (a b c : string) : a +:+ b = a +:+ c → b = c.
Proof.
  unfold String.app. induction a as [|d a IH]; simpl; [done|].
  intros [= H]. by apply IH.
Qed.

Lemma too_old_not_too_recent (module_name version bound bound' : string) :
  status_line FAILURE_VERSION_TOO_OLD module_name version bound
  ≠ status_line FAILURE_VERSION_TOO_NEW module_name version bound'.
Proof.
  unfold status_line. intros Hsame.
  do 5 apply string_app_inv_head in Hsame. discriminate Hsame.
Qed.

Lemma list_lt_asym (v w : list Z) : list_lt v w = true → list_lt w v = false.
Proof.
  intros Hlt. destruct (list_lt w v) eqn:Hgt; [|done].
  revert w Hlt Hgt. induction v as [|x v IH]; intros [|y w]; simpl; try done.
  rewrite (Z.eqb_sym y x). destruct (Z.eqb_spec x y) as [->|Hne]; [apply IH|].
  intros ?%Z.ltb_lt ?%Z.ltb_lt. lia.
Qed.

Lemma Parse_component (n : Z) :
  0 ≤ n < 10 ^ int_max_str_digits → Parse (numeral n) = Some [n].
Proof.
  intros [Hlow Hhigh]. rewrite Parse_numeral.
  destruct (Z.ltb_spec n 0); [lia|]. cbn [orb].
  destruct n as [|p|p]; [done| |lia].
  apply numeral_fits in Hhigh.
  by destruct (Z.gtb_spec (digit_count (numeral (Z.pos p)))
                 int_max_str_digits); [lia|].
Qed.

Lemma Parse_dotted (v : list Z) :
  v ≠ [] → Forall (λ n, 0 ≤ n < 10 ^ int_max_str_digits) v →
  Parse (dotted v) = Some v.
Proof.
  intros Hne Hall. induction Hall as [|n v Hn Hall IH]; [done|].
  destruct v as [|n' v].
  - by apply Parse_component.
  - change (dotted (n :: n' :: v))
      with (numeral n +:+ String "." (dotted (n' :: v))).
    rewrite (Parse_join _ _ "." eq_refl), (Parse_component n Hn), IH by done.
    done.
Qed.

(** C2: the check compares the version that a module reports with the
    declared bounds as vectors of numbers, in lexicographic order. For a
    present module whose version text and declared minimum both parse, the
    comparison [<] of the parsed vectors is the lexicographic order, the
    check answers too old exactly when the vector of the version is below
    the vector of the minimum, which is the case when it is a proper prefix
    of it; once the version is not too old, the check answers too recent
    exactly when the vector of a declared maximum that parses is below the
    vector of the version. The components are the numbers that the pieces
    write: a text of decimal numerals with dots between them parses to the
    vector of these numbers. *)
Theorem parse_order_lexicographic (env : Env) (module_name : string)
    (attr minv maxv : option string) (is_required verbose : bool)
    (t t' : list event) (module_object mv : pyval) (accessor m : string)
    (a b : list Z) :
  _ImportPythonModule env module_name = (t, Return module_object) →
  truthy module_object = true →
  nonempty attr = Some accessor →
  nonempty minv = Some m →
  module_version_of env module_object accessor = (t', Return mv) →
  truthy mv = true →
  Parse (py_str mv) = Some a → Parse m = Some b →
  let check :=
    _CheckPythonModule env module_name attr minv is_required maxv verbose in
  let too_old : run bool :=
    (t ++ t' ++ [Print (status_line FAILURE_VERSION_TOO_OLD module_name
                          (py_str mv) m)], Return false) in
  (list_lt a b = true ↔ lex_lt a b)
  ∧ (check = too_old ↔ lex_lt a b)
  ∧ (∀ x rest, b = a ++ x :: rest → check = too_old)
  ∧ (∀ x rest, a = b ++ x :: rest → check ≠ too_old)
  ∧ (¬ lex_lt a b → ∀ M c, nonempty maxv = Some M → Parse M = Some c →
       check = (t ++ t' ++ [Print (status_line FAILURE_VERSION_TOO_NEW
                                     module_name (py_str mv) M)],
                Return false)
       ↔ lex_lt c a)
  ∧ (∀ v, v ≠ [] → Forall (λ n, 0 ≤ n < 10 ^ int_max_str_digits) v →
       Parse (dotted v) = Some v).
Proof.
  intros Hprobe Hpresent Hattr Hmin Hver Hdet Ha Hb check too_old.
  assert (Hold : lex_lt a b → check = too_old).
  { intros Hlt%list_lt_lex. eapply check_too_old; eauto. }
  assert (Hnot : ¬ lex_lt a b → check ≠ too_old).
  { intros Hn. assert (Hlt : list_lt a b = false).
    { destruct (list_lt a b) eqn:E; [|done]. by apply list_lt_lex in E. }
    unfold check, too_old.
    destruct (nonempty maxv) as [M|] eqn:Hmax;
      [|by erewrite check_unbounded by eauto].
    destruct (Parse M) as [c|] eqn:Hc;
      [|by erewrite check_malformed_maximum by eauto].
    destruct (list_gt a c) eqn:Hgt;
      [|by erewrite check_within_bounds by eauto].
    erewrite check_too_recent by eauto.
    intros Hsame. apply (f_equal (λ r : run bool, printed r.1)) in Hsame.
    cbn [fst] in Hsame. rewrite !printed_app in Hsame.
    do 2 apply app_inv_head in Hsame.
    apply (too_old_not_too_recent module_name (py_str mv) m M).
    exact (eq_sym (f_equal (λ lines, default "" (head lines)) Hsame)). }
  split; [apply list_lt_lex|]. split; [|split; [|split; [|split]]].
  - split; [|done]. intros Hcheck.
    destruct (list_lt a b) eqn:E; [by apply list_lt_lex|].
    exfalso. apply Hnot; [|done]. intros Hlt%list_lt_lex. congruence.
  - intros x rest ->. apply Hold, lex_lt_extend.
  - intros x rest ->. apply Hnot. intros Hlt%list_lt_lex.
    apply list_lt_asym in Hlt.
    pose proof (lex_lt_extend b x rest) as Hext%list_lt_lex. congruence.
  - intros Hn M c Hmax Hc.
    assert (Hlt : list_lt a b = false).
    { destruct (list_lt a b) eqn:E; [|done]. by apply list_lt_lex in E. }
    unfold check. destruct (list_gt a c) eqn:Hgt.
    + erewrite check_too_recent by eauto. split; [|done]. intros _.
      apply list_lt_lex. by rewrite <- list_gt_lt.
    + erewrite check_within_bounds by eauto. split; [done|].
      intros Hgt'%list_lt_lex. rewrite <- list_gt_lt in Hgt'. congruence.
  - apply Parse_dotted.
Qed.

Lemma parse_order_lexicographic_witness :
  _CheckPythonModule
    (host [("widget", Return (module_with "__version__" "3.7.8"))])
    "widget" (Some "__version__") (Some "3.10.0") true None true
  = ([Import "widget";
      Print (status_line FAILURE_VERSION_TOO_OLD "widget" "3.7.8" "3.10.0")],
     Return false)
  ∧ Parse "3.7.8" = Some [3; 7; 8]
  ∧ Parse "3.10.0" = Some [3; 10; 0]
  ∧ String.ltb "3.7.8" "3.10.0" = false.
Proof.
  pose proof (parse_order_lexicographic
    (host [("widget", Return (module_with "__version__" "3.7.8"))])
    "widget" (Some "__version__") (Some "3.10.0") None true true
    [Import "widget"] [] (module_with "__version__" "3.7.8") (PyStr "3.7.8")
    "__version__" "3.10.0" [3; 7; 8] [3; 10; 0]
    eq_refl eq_refl eq_refl eq_refl eq_refl eq_refl eq_refl eq_refl)
    as (_ & Hcheck & _ & _ & _ & Hdotted).
  split; [|split; [|split]].
  - apply Hcheck. apply lex_lt_tail, lex_lt_head. lia.
  - apply (Hdotted [3; 7; 8]); [discriminate|].
    repeat (constructor; [split; [lia | vm_compute; reflexivity]|]).
    constructor.
  - apply (Hdotted [3; 10; 0]); [discriminate|].
    repeat (constructor; [split; [lia | vm_compute; reflexivity]|]).
    constructor.
  - reflexivity.
Defined.

(** ** Version bounds *)

(** C3, as the code has it: for a present module whose extracted version
    parses, a version equal to the minimum succeeds when no maximum is
    declared or the declared maximum parses and is not below the version; a
    version equal to the declared maximum succeeds when the minimum parses
    and is not above the version; the too-old failure is the outcome exactly
    when the version is strictly below the minimum, and the too-new failure
    exactly when it is not too old and strictly above the maximum. *)
Theorem version_bounds_inclusive (env : Env) (module_name : string)
    (attr minv maxv : option string) (is_required verbose : bool)
    (t t' : list event) (module_object mv : pyval) (a m : string)
    (v : list Z) :
  _ImportPythonModule env module_name = (t, Return module_object) →
  truthy module_object = true →
  nonempty attr = Some a →
  nonempty minv = Some m →
  module_version_of env module_object a = (t', Return mv) →
  truthy mv = true →
  Parse (py_str mv) = Some v →
  let check :=
    _CheckPythonModule env module_name attr minv is_required maxv verbose in
  let success : run bool :=
    (t ++ t' ++ (if verbose
                 then [Print (status_line OK_WITH_VERSION module_name
                                (py_str mv) "")]
                 else []), Return true) in
  (Parse m = Some v →
   (nonempty maxv = None
    ∨ ∃ x xs, nonempty maxv = Some x ∧ Parse x = Some xs ∧ ¬ lex_lt xs v) →
   check = success)
  ∧ (∀ x ms, nonempty maxv = Some x → Parse x = Some v →
       Parse m = Some ms → ¬ lex_lt v ms → check = success)
  ∧ (∀ ms, Parse m = Some ms →
       (lex_lt v ms →
        check = (t ++ t' ++ [Print (status_line FAILURE_VERSION_TOO_OLD
                                      module_name (py_str mv) m)],
                 Return false))
       ∧ (¬ lex_lt v ms → nonempty maxv = None → check = success)
       ∧ (¬ lex_lt v ms → ∀ x xs, nonempty maxv = Some x → Parse x = Some xs →
            (lex_lt xs v →
             check = (t ++ t' ++ [Print (status_line FAILURE_VERSION_TOO_NEW
                                           module_name (py_str mv) x)],
                      Return false))
            ∧ (¬ lex_lt xs v → check = success))).
Proof.
  intros Hprobe Hpresent Hattr Hmin Hver Hdet Hv check success.
  assert (Hge : ∀ p q, ¬ lex_lt p q → list_lt p q = false).
  { intros p q Hn. destruct (list_lt p q) eqn:E; [|done].
    by apply list_lt_lex in E. }
  assert (Hle : ∀ p q, ¬ lex_lt q p → list_gt p q = false).
  { intros p q Hn. rewrite list_gt_lt. by apply Hge. }
  split; [|split].
  - intros Hm [Hmax | (x & xs & Hmax & Hx & Hn)].
    + eapply check_unbounded; eauto using lex_lt_irrefl.
    + eapply check_within_bounds; eauto using lex_lt_irrefl.
  - intros x ms Hmax Hx Hm Hn.
    eapply check_within_bounds; eauto using lex_lt_irrefl.
  - intros ms Hm. split; [|split].
    + intros Hlt. eapply check_too_old; eauto. by apply list_lt_lex.
    + intros Hn Hmax. eapply check_unbounded; eauto.
    + intros Hn x xs Hmax Hx. split.
      * intros Hgt. eapply check_too_recent; eauto.
        rewrite list_gt_lt. by apply list_lt_lex.
      * intros Hngt. eapply check_within_bounds; eauto.
Qed.

Lemma version_bounds_inclusive_witness :
  _CheckPythonModule
    (host [("widget", Return (module_with "__version__" "1.2.0"))])
    "widget" (Some "__version__") (Some "1.2.0") true None true
  = ([Import "widget";
      Print (status_line OK_WITH_VERSION "widget" "1.2.0" "")], Return true).
Proof.
  exact (proj1
    (version_bounds_inclusive
       (host [("widget", Return (module_with "__version__" "1.2.0"))])
       "widget" (Some "__version__") (Some "1.2.0") None true true
       [Import "widget"] [] (module_with "__version__" "1.2.0")
       (PyStr "1.2.0") "__version__" "1.2.0" [1; 2; 0]
       eq_refl eq_refl eq_refl eq_refl eq_refl eq_refl eq_refl)
    eq_refl (or_introl eq_refl)).
Defined.

(** A version equal to the minimum is refused when the declared maximum is
    lower, and a version equal to the maximum is refused when the declared
    minimum is higher. *)
Lemma equal_bound_refused_by_other_bound :
  _CheckPythonModule
    (host [("widget", Return (module_with "__version__" "2.0"))])
    "widget" (Some "__version__") (Some "2.0") true (Some "1.0") true
  = ([Import "widget";
      Print (status_line FAILURE_VERSION_TOO_NEW "widget" "2.0" "1.0")],
     Return false)
  ∧ _CheckPythonModule
      (host [("widget", Return (module_with "__version__" "1.0"))])
      "widget" (Some "__version__") (Some "2.0") true (Some "1.0") true
    = ([Import "widget";
        Print (status_line FAILURE_VERSION_TOO_OLD "widget" "1.0" "2.0")],
       Return false).
Proof. split; reflexivity. Qed.

(** ** Malformed version texts *)

(** C4, as the code has it: for a present module whose version could be
    determined, a piece that [int] rejects in the extracted version or in
    the minimum raises [ValueError] out of the check, and so does one in the
    declared maximum once the version is not too old; no boolean is
    returned. The text with the rejected piece is ASCII, where [int] reads
    decimal literals only. A module that is missing, a check of presence
    only, and a version that cannot be determined, is too old or is too
    recent, are answered with a boolean, whatever the texts that were not
    parsed yet hold. *)
Theorem malformed_version_raises (env : Env) (module_name : string)
    (attr minv maxv : option string) (is_required verbose : bool)
    (t : list event) (module_object : pyval) :
  _ImportPythonModule env module_name = (t, Return module_object) →
  let check :=
    _CheckPythonModule env module_name attr minv is_required maxv verbose in
  (truthy module_object = false →
   ∃ line, check = (t ++ [Print line], Return (negb is_required)))
  ∧ (truthy module_object = true →
     nonempty attr = None ∨ nonempty minv = None →
     check = (t ++ (if verbose
                    then [Print (status_line OK module_name "" "")]
                    else []), Return true))
  ∧ (truthy module_object = true →
     ∀ a m t' mv,
       nonempty attr = Some a →
       nonempty minv = Some m →
       module_version_of env module_object a = (t', Return mv) →
       (truthy mv = false →
        check = (t ++ t' ++ [Print (status_line FAILURE_VERSION_UNDETERMINED
                                      module_name "" "")], Return false))
       ∧ (truthy mv = true →
          ((ascii_text (py_str mv) = true ∧ Parse (py_str mv) = None)
           ∨ (ascii_text m = true ∧ Parse m = None) →
           check = (t ++ t', Raise ValueError))
          ∧ (∀ v ms, Parse (py_str mv) = Some v → Parse m = Some ms →
               (list_lt v ms = true →
                check = (t ++ t' ++
                           [Print (status_line FAILURE_VERSION_TOO_OLD
                                     module_name (py_str mv) m)],
                         Return false))
               ∧ (list_lt v ms = false → ∀ x, nonempty maxv = Some x →
                    (ascii_text x = true → Parse x = None →
                     check = (t ++ t', Raise ValueError))
                    ∧ (∀ xs, Parse x = Some xs → list_gt v xs = true →
                         check = (t ++ t' ++
                                    [Print (status_line FAILURE_VERSION_TOO_NEW
                                              module_name (py_str mv) x)],
                                  Return false)))))).
Proof.
  intros Hprobe check. split.
  - intros Habsent. unfold check.
    rewrite (check_absent _ _ _ _ _ _ _ _ _ Hprobe Habsent).
    destruct is_required; eauto.
  - split; [intros Hpresent Hempty; by eapply check_presence_only|].
    intros Hpresent a m t' mv Hattr Hmin Hver. split.
    + intros Hmv. eapply check_undetermined; eauto.
    + intros Hdet. split.
      * intros [[_ Hv] | [_ Hm]].
        -- eapply check_malformed_version; eauto.
        -- destruct (Parse (py_str mv)) as [v|] eqn:Hv.
           ++ eapply check_malformed_minimum; eauto.
           ++ eapply check_malformed_version; eauto.
      * intros v ms Hv Hm. split.
        -- intros Hlt. eapply check_too_old; eauto.
        -- intros Hlt x Hmax. split.
           ++ intros _ Hx. eapply check_malformed_maximum; eauto.
           ++ intros xs Hx Hgt. eapply check_too_recent; eauto.
Qed.

Lemma malformed_version_raises_witness :
  _CheckPythonModule
    (host [("widget", Return (module_with "__version__" "1.2rc1"))])
    "widget" (Some "__version__") (Some "1.2.0") true None true
  = ([Import "widget"], Raise ValueError).
Proof.
  exact (proj1 (proj2 (proj2 (proj2
    (malformed_version_raises
       (host [("widget", Return (module_with "__version__" "1.2rc1"))])
       "widget" (Some "__version__") (Some "1.2.0") None true true
       [Import "widget"] (module_with "__version__" "1.2rc1") eq_refl))
    eq_refl "__version__" "1.2.0" [] (PyStr "1.2rc1") eq_refl eq_refl eq_refl)
    eq_refl) (or_introl (conj eq_refl eq_refl))).
Defined.

(** A malformed text that the check does not reach aborts nothing: the
    module is missing, or its version is too old before the maximum is
    looked at. *)
Lemma malformed_text_not_reached :
  (Parse "one.two" = None
   ∧ _CheckPythonModule (host []) "widget" (Some "__version__")
       (Some "one.two") true None true
     = ([Import "widget";
         Print (status_line FAILURE_MISSING "widget" "" "")], Return false))
  ∧ (Parse "latest" = None
     ∧ _CheckPythonModule
         (host [("widget", Return (module_with "__version__" "1.1.9"))])
         "widget" (Some "__version__") (Some "1.2.0") true (Some "latest") true
       = ([Import "widget";
           Print (status_line FAILURE_VERSION_TOO_OLD "widget" "1.1.9"
                    "1.2.0")], Return false)).
Proof. repeat split; reflexivity. Qed.

(** ** The probe of a module *)

(** The walk of [_ImportPythonModule] along the names after the first dot. *)
Local Abbreviation walk env :=
  (foldl (λ module_object submodule_name,
            getattr env module_object submodule_name PyNone)).

Lemma split_on_no_sep (c : ascii) (s : string) :
  contains c s = false → split_on (Ascii.eqb c) s = [s].
Proof.
  induction s as [|d s IH]; simpl; [done|].
  intros [Hd Hs]%orb_false_iff. by rewrite Hd, (IH Hs).
Qed.

Lemma getattr_missing (env : Env) (obj : pyval) (name : string)
    (default : pyval) :
  attr_lookup env obj name = None → getattr env obj name default = default.
Proof. unfold getattr. by intros ->. Qed.

Lemma walk_from_None (env : Env) (names : list string) :
  Forall (λ name, attr_lookup env PyNone name = None) names →
  walk env PyNone names = PyNone.
Proof.
  induction 1 as [|name names Hname _ IH]; simpl; [done|].
  by rewrite (getattr_missing _ _ _ _ Hname).
Qed.

Lemma import_trace (env : Env) (module_name : string) :
  (_ImportPythonModule env module_name).1 = [Import module_name].
Proof.
  unfold _ImportPythonModule, __import__.
  by destruct (if String.eqb module_name "" then _ else _) as [?|[]].
Qed.

(** C5, as the code has it: the probe turns [ImportError] into an absent
    module and lets every other exception of the import through; when the
    import succeeds it walks the names after the first dot from the
    top-level module with [getattr] and [None] as default, so that the
    result is absent when a link is missing and [None] itself has none of
    the names that follow. *)
Theorem probe_outcomes (env : Env) (module_name : string) :
  ((__import__ env module_name).2 = Raise ImportError →
   _ImportPythonModule env module_name = ([Import module_name], Return PyNone))
  ∧ (∀ e, (_ImportPythonModule env module_name).2 = Raise e ↔
          e ≠ ImportError ∧ (__import__ env module_name).2 = Raise e)
  ∧ (∀ top, (__import__ env module_name).2 = Return top →
       let chain := tail (split_on (Ascii.eqb ".") module_name) in
       _ImportPythonModule env module_name =
         ([Import module_name], Return (walk env top chain))
       ∧ ∀ before missing after,
           chain = before ++ missing :: after →
           attr_lookup env (walk env top before) missing = None →
           Forall (λ name, attr_lookup env PyNone name = None) after →
           _ImportPythonModule env module_name =
             ([Import module_name], Return PyNone)).
Proof.
  unfold _ImportPythonModule, __import__. cbn [snd].
  destruct (if String.eqb module_name "" then _ else _) as [top|e] eqn:Himport.
  - split; [done|]. split; [intros e; split; [done | by intros [_ ?]]|].
    intros ? [= <-].
    set (chain := tail (split_on (Ascii.eqb ".") module_name)).
    assert (Hwalk : (if contains "." module_name
                     then walk env top chain else top) = walk env top chain).
    { destruct (contains "." module_name) eqn:Hdot; [done|].
      unfold chain. by rewrite (split_on_no_sep _ _ Hdot). }
    rewrite Hwalk. split; [done|].
    intros before missing after -> Hmissing Hafter.
    rewrite foldl_app. cbn [foldl].
    by rewrite (getattr_missing _ _ _ _ Hmissing), walk_from_None.
  - split; [by intros [= ->]|]. split; [|done].
    intros e'. destruct e; cbn; split; try done;
      try (intros [= <-]; done); try (by intros [? [= <-]]);
      try (by intros [? ?]).
Qed.

Lemma probe_outcomes_witness :
  _ImportPythonModule (host [("pkg.sub.leaf", Return (PyObject []))])
    "pkg.sub.leaf"
  = ([Import "pkg.sub.leaf"], Return PyNone).
Proof.
  exact (proj2 (proj2 (proj2
    (probe_outcomes (host [("pkg.sub.leaf", Return (PyObject []))])
       "pkg.sub.leaf")) (PyObject []) eq_refl)
    [] "sub" ["leaf"] eq_refl eq_refl
    (Forall_cons_2 _ _ _ eq_refl (Forall_nil_2 _))).
Defined.

(** The probe lets through what is not an [ImportError]: an exception of
    the module's own initialisation, or the [ValueError] for an empty name.
    And a missing link followed by a name that [None] has is not absent. *)
Lemma probe_lets_errors_through :
  _ImportPythonModule (host [("broken", Raise (OtherError "RuntimeError"))])
    "broken"
  = ([Import "broken"], Raise (OtherError "RuntimeError"))
  ∧ _ImportPythonModule (host []) "" = ([Import ""], Raise ValueError)
  ∧ _ImportPythonModule
      (host_None_class [("pkg.sub.__class__", Return (PyObject []))])
      "pkg.sub.__class__"
    = ([Import "pkg.sub.__class__"],
       Return (PyObject [("__name__", PyStr "NoneType")])).
Proof. repeat split; reflexivity. Qed.

(** ** Every check comes to a verdict *)

Lemma module_version_of_trace (env : Env) (module_object : pyval)
    (version_attribute_name : string) :
  (module_version_of env module_object version_attribute_name).1 = [].
Proof.
  unfold module_version_of. destruct (negb _); [done|].
  destruct (truthy _); [|done].
  by destruct (getattr _ _ _ _).
Qed.

Lemma check_verdict (env : Env) (module_name : string)
    (attr minv maxv : option string) (is_required : bool) :
  ∃ vd,
    vd ≠ Unreported
    ∧ (∀ version bound, vd = Reported OPTIONAL_MISSING version bound →
         is_required = false
         ∧ ∃ absent, (_ImportPythonModule env module_name).2 = Return absent
                     ∧ truthy absent = false)
    ∧ ∀ verbose,
        _CheckPythonModule env module_name attr minv is_required maxv verbose
        = verdict_run verbose module_name [Import module_name] vd.
Proof.
  pose proof (import_trace env module_name) as Htrace.
  destruct (_ImportPythonModule env module_name) as [t [obj|e]] eqn:Hprobe;
    cbn in Htrace; subst t;
    [|exists (Aborted e); split; [done|split; [done|]];
      intros verbose; by apply check_probe_raises].
  destruct (truthy obj) eqn:Hpresent; cycle 1.
  { destruct is_required.
    - exists (Reported FAILURE_MISSING "" ""). split; [done|split; [done|]].
      intros verbose. by rewrite (check_absent _ _ _ _ _ _ _ _ _ Hprobe Hpresent).
    - exists (Reported OPTIONAL_MISSING "" ""). split; [done|split; [by intros ?? _; eauto|]].
      intros verbose. by rewrite (check_absent _ _ _ _ _ _ _ _ _ Hprobe Hpresent). }
  destruct (nonempty attr) as [a|] eqn:Hattr; cycle 1.
  { exists (Reported OK "" ""). split; [done|split; [done|]]. intros verbose.
    rewrite (check_presence_only _ _ _ _ _ _ _ _ _ Hprobe Hpresent); [|by left].
    by destruct verbose. }
  destruct (nonempty minv) as [m|] eqn:Hmin; cycle 1.
  { exists (Reported OK "" ""). split; [done|split; [done|]]. intros verbose.
    rewrite (check_presence_only _ _ _ _ _ _ _ _ _ Hprobe Hpresent); [|by right].
    by destruct verbose. }
  pose proof (module_version_of_trace env obj a) as Htrace.
  destruct (module_version_of env obj a) as [t' [mv|e]] eqn:Hver;
    cbn in Htrace; subst t'; cycle 1.
  { exists (Aborted e). split; [done|split; [done|]]. intros verbose.
    by erewrite check_version_raises by eauto. }
  destruct (truthy mv) eqn:Hdet; cycle 1.
  { exists (Reported FAILURE_VERSION_UNDETERMINED "" ""). split; [done|split; [done|]].
    intros verbose. by erewrite check_undetermined by eauto. }
  destruct (Parse (py_str mv)) as [v|] eqn:Hv; cycle 1.
  { exists (Aborted ValueError). split; [done|split; [done|]]. intros verbose.
    by erewrite check_malformed_version by eauto. }
  destruct (Parse m) as [ms|] eqn:Hm; cycle 1.
  { exists (Aborted ValueError). split; [done|split; [done|]]. intros verbose.
    by erewrite check_malformed_minimum by eauto. }
  destruct (list_lt v ms) eqn:Hlt.
  { exists (Reported FAILURE_VERSION_TOO_OLD (py_str mv) m). split; [done|split; [done|]].
    intros verbose. by erewrite check_too_old by eauto. }
  destruct (nonempty maxv) as [x|] eqn:Hmax; cycle 1.
  { exists (Reported OK_WITH_VERSION (py_str mv) ""). split; [done|split; [done|]].
    intros verbose. erewrite check_unbounded by eauto. by destruct verbose. }
  destruct (Parse x) as [xs|] eqn:Hx; cycle 1.
  { exists (Aborted ValueError). split; [done|split; [done|]]. intros verbose.
    by erewrite check_malformed_maximum by eauto. }
  destruct (list_gt v xs) eqn:Hgt.
  { exists (Reported FAILURE_VERSION_TOO_NEW (py_str mv) x). split; [done|split; [done|]].
    intros verbose. by erewrite check_too_recent by eauto. }
  exists (Reported OK_WITH_VERSION (py_str mv) ""). split; [done|split; [done|]].
  intros verbose. erewrite check_within_bounds by eauto. by destruct verbose.
Qed.

(** ** The check of the database engine *)

Lemma sqlite_unfold (env : Env) (verbose : bool) :
  _CheckSQLite3 env verbose =
    first_probe ← _ImportPythonModule env "pysqlite2.dbapi2";
    check_candidate env (sqlite_candidate first_probe) "3.7.8" verbose.
Proof. reflexivity. Qed.

Lemma sqlite_minimum : version_map "3.7.8" = ([], Return [3; 7; 8]).
Proof. reflexivity. Qed.

Lemma candidate_verdict (env : Env) (module_name : string) :
  ∃ vd,
    (∀ st version bound, vd = Reported st version bound →
       st = FAILURE_MISSING ∨ st = FAILURE_VERSION_TOO_OLD
       ∨ st = OK_WITH_VERSION)
    ∧ (vd = Unreported ↔
       ∃ module_object,
         (_ImportPythonModule env module_name).2 = Return module_object
         ∧ truthy module_object = true
         ∧ truthy (getattr env module_object "sqlite_version" PyNone) = false)
    ∧ ∀ verbose,
        check_candidate env module_name "3.7.8" verbose
        = verdict_run verbose module_name [Import module_name] vd.
Proof.
  pose proof (import_trace env module_name) as Htrace.
  unfold check_candidate.
  destruct (_ImportPythonModule env module_name) as [t [obj|e]] eqn:Hprobe;
    cbn in Htrace; subst t; cycle 1.
  { exists (Aborted e). split; [done|]. split; [|done].
    split; [done | by intros (? & ? & _)]. }
  rewrite sqlite_minimum. setoid_rewrite bind_Return.
  destruct (truthy obj) eqn:Hpresent; cbn [negb]; cycle 1.
  { exists (Reported FAILURE_MISSING "" "").
    split; [intros ??? [= <- _ _]; by left|].
    split; [|done]. split; [done|]. intros (? & [= <-] & ? & _). congruence. }
  destruct (truthy (getattr env obj "sqlite_version" PyNone)) eqn:Hdet;
    cbn [negb]; cycle 1.
  { exists Unreported. split; [done|]. split; [|done]. split; [|done].
    intros _. exists obj. by rewrite Hdet. }
  assert (Hnot : ∀ vd, vd ≠ Unreported →
            vd = Unreported ↔
            ∃ module_object, Return obj = Return module_object
              ∧ truthy module_object = true
              ∧ truthy (getattr env module_object "sqlite_version" PyNone)
                = false).
  { intros vd Hvd. split; [done|]. intros (? & [= <-] & _ & ?). congruence. }
  destruct (version_map_of (getattr env obj "sqlite_version" PyNone))
    as [t' [v|e]] eqn:Hmap.
  - assert (t' = []) as ->.
    { revert Hmap. unfold version_map_of, version_map.
      destruct (getattr _ _ _ _); try done.
      destruct (Parse _); by intros [= <- _]. }
    destruct (list_lt v [3; 7; 8]) eqn:Hlt.
    + exists (Reported FAILURE_VERSION_TOO_OLD
                (py_str (getattr env obj "sqlite_version" PyNone)) "3.7.8").
      split; [intros ??? [= <- _ _]; by right; left|]. split; [by apply Hnot|].
      intros verbose. run_steps. by rewrite Hlt.
    + exists (Reported OK_WITH_VERSION
                (py_str (getattr env obj "sqlite_version" PyNone)) "").
      split; [intros ??? [= <- _ _]; by right; right|]. split; [by apply Hnot|].
      intros verbose. run_steps. rewrite Hlt. by destruct verbose.
  - assert (t' = []) as ->.
    { revert Hmap. unfold version_map_of, version_map.
      destruct (getattr _ _ _ _); try (by intros [= <- _]).
      destruct (Parse _); by intros [= <- _]. }
    exists (Aborted e). split; [done|]. split; [by apply Hnot|]. done.
Qed.

(** ** Failures and their lines *)



(** C6 fails on the check of the database engine: when the module that was
    found has no [sqlite_version], [_CheckSQLite3] answers false and prints
    nothing, whatever the verbosity, while [_CheckPythonModule] prints the
    failure line for the same module in the same state. *)
Theorem sqlite_undetermined_version_is_silent (verbose : bool) :
  _CheckSQLite3 (host [("sqlite3", Return (PyObject []))]) verbose
  = ([Import "pysqlite2.dbapi2"; Import "sqlite3"], Return false)
  ∧ _CheckPythonModule (host [("sqlite3", Return (PyObject []))])
      "sqlite3" (Some "sqlite_version") (Some "3.7.8") true None verbose
    = ([Import "sqlite3";
        Print (status_line FAILURE_VERSION_UNDETERMINED "sqlite3" "" "")],
       Return false).
Proof. destruct verbose; split; reflexivity. Qed.

(** ** Lines of a successful check *)

Lemma bind_inv_Return {A B} (m : run A) (f : A → run B) (t : list event) (b : B) :
  m ≫= f = (t, Return b) →
  ∃ t1 a t2, m = (t1, Return a) ∧ f a = (t2, Return b) ∧ t = t1 ++ t2.
Proof.
  destruct m as [t1 [a|e]]; [|done]. rewrite bind_Return.
  destruct (f a) as [t2 r] eqn:Hf. cbn. intros [= <- ->]. eauto 6.
Qed.

Lemma quiet_python_module_success (env : Env) (module_name : string)
    (attr minv maxv : option string) (is_required : bool) (t : list event) :
  _CheckPythonModule env module_name attr minv is_required maxv false
  = (t, Return true) →
  printed t = []
  ∨ (is_required = false
     ∧ (∃ absent, (_ImportPythonModule env module_name).2 = Return absent
                  ∧ truthy absent = false)
     ∧ printed t = [status_line OPTIONAL_MISSING module_name "" ""]).
Proof.
  destruct (check_verdict env module_name attr minv maxv is_required)
    as (vd & _ & Hoptional & Hrun).
  rewrite Hrun. destruct vd as [e|st version bound|]; [done| |done].
  cbn. intros [= <- Hst]. destruct st; try done; cbn; try by left.
  right. destruct (Hoptional version bound eq_refl) as [-> Habsent]. done.
Qed.

Lemma quiet_sqlite_success (env : Env) (t : list event) :
  _CheckSQLite3 env false = (t, Return true) → printed t = [].
Proof.
  rewrite sqlite_unfold. intros (t1 & probe & t2 & Hprobe & Hrest & ->)%bind_inv_Return.
  pose proof (import_trace env "pysqlite2.dbapi2") as Htrace.
  rewrite Hprobe in Htrace. cbn in Htrace. subst t1.
  destruct (candidate_verdict env (sqlite_candidate probe))
    as (vd & Hst & _ & Hrun).
  rewrite Hrun in Hrest. destruct vd as [e|st version bound|]; [done| |done].
  cbn in Hrest. injection Hrest as <- Hsuccess.
  destruct (Hst st version bound eq_refl) as [-> | [-> | ->]]; done.
Qed.

Lemma quiet_loop_success (env : Env) (items : list (string * version_tuple))
    (check_result : bool) (t : list event) :
  check_loop env false items check_result = (t, Return true) →
  check_result = true ∧ Forall optional_line (printed t).
Proof.
  revert check_result t. induction items as [|[name vt] items IH];
    intros check_result t; cbn [check_loop].
  - by intros [= <- ->].
  - intros (t1 & ok & t2 & Hitem & Hrest & ->)%bind_inv_Return.
    apply IH in Hrest as [Hacc Hlines].
    destruct ok; [|done]. cbn in Hacc. split; [done|].
    rewrite printed_app. apply Forall_app. split; [|done].
    apply quiet_python_module_success in Hitem as [-> | (_ & _ & ->)];
      [done|].
    repeat constructor. by exists name.
Qed.

Lemma status_line_not_summary (line : string) :
  is_status_line line → line ≠ "[OK]".
Proof. intros (st & name & version & bound & ->). by destruct st. Qed.

Lemma verdict_run_lines (verbose : bool) (module_name : string)
    (t : list event) (vd : verdict) :
  Forall is_status_line (printed t) →
  Forall is_status_line (printed (verdict_run verbose module_name t vd).1).
Proof.
  intros Ht. destruct vd as [e|st version bound|]; cbn [verdict_run fst];
    [done| |done].
  rewrite printed_app. apply Forall_app. split; [done|].
  destruct (_ && _); repeat constructor.
  by exists st, module_name, version, bound.
Qed.

Lemma check_item_lines (env : Env) (verbose : bool)
    (item : string * version_tuple) :
  Forall is_status_line (printed (check_item env verbose item).1).
Proof.
  destruct item as [module_name vt]. cbn [check_item].
  destruct (check_verdict env module_name (version_attribute_name vt)
              (minimum_version vt) (maximum_version vt) (is_required vt))
    as (vd & _ & _ & Hrun).
  rewrite Hrun. apply verdict_run_lines. constructor.
Qed.

Lemma check_loop_lines (env : Env) (verbose : bool)
    (items : list (string * version_tuple)) (check_result : bool) :
  Forall is_status_line
    (printed (check_loop env verbose items check_result).1).
Proof.
  revert check_result. induction items as [|item items IH];
    intros check_result; cbn [check_loop]; [constructor|].
  pose proof (check_item_lines env verbose item) as Hitem.
  destruct (check_item env verbose item) as [t1 [ok|e]]; [|done].
  rewrite bind_Return. cbn [fst] in *. rewrite printed_app.
  apply Forall_app. split; [done | apply IH].
Qed.

Lemma sqlite_lines (env : Env) (verbose : bool) :
  Forall is_status_line (printed (_CheckSQLite3 env verbose).1).
Proof.
  rewrite sqlite_unfold.
  pose proof (import_trace env "pysqlite2.dbapi2") as Htrace.
  destruct (_ImportPythonModule env "pysqlite2.dbapi2") as [t1 [first|e]];
    cbn [fst] in Htrace; subst t1; [|constructor].
  rewrite bind_Return. cbn [fst].
  destruct (candidate_verdict env (sqlite_candidate first))
    as (vd & _ & _ & Hrun).
  rewrite Hrun, printed_app. apply Forall_app. split; [constructor|].
  apply verdict_run_lines. constructor.
Qed.

Lemma python_module_success (env : Env) (module_name : string)
    (attr minv maxv : option string) (is_required verbose : bool)
    (t : list event) :
  _CheckPythonModule env module_name attr minv is_required maxv verbose
  = (t, Return true) →
  ∃ probe,
    (_ImportPythonModule env module_name).2 = Return probe
    ∧ if truthy probe
      then ∃ st version,
             (st = OK ∨ st = OK_WITH_VERSION)
             ∧ printed t = if verbose
                           then [status_line st module_name version ""]
                           else []
      else is_required = false
           ∧ printed t = [status_line OPTIONAL_MISSING module_name "" ""].
Proof.
  pose proof (import_trace env module_name) as Htrace.
  destruct (_ImportPythonModule env module_name) as [t0 [probe|e]] eqn:Hprobe;
    cbn [fst] in Htrace; subst t0;
    [|by rewrite (check_probe_raises _ _ _ _ _ _ _ _ _ Hprobe)].
  intros Hrun. exists probe. split; [done|].
  destruct (truthy probe) eqn:Hpresent.
  - destruct (check_verdict env module_name attr minv maxv is_required)
      as (vd & _ & Hoptional & Hverdict).
    rewrite Hverdict in Hrun.
    destruct vd as [e|st version bound|]; [done| |done].
    cbn in Hrun. injection Hrun as <- Hst.
    destruct st; try done.
    + exists OK, "". split; [by left|]. by destruct verbose.
    + exists OK_WITH_VERSION, version. split; [by right|]. by destruct verbose.
    + destruct (Hoptional version bound eq_refl) as (_ & absent & Habsent & ?).
      rewrite Hprobe in Habsent. cbn in Habsent. congruence.
  - rewrite (check_absent _ _ _ _ _ _ _ _ _ Hprobe Hpresent) in Hrun.
    destruct is_required; [done|]. by injection Hrun as <-.
Qed.

Lemma sqlite_success (env : Env) (verbose : bool) (t : list event) :
  _CheckSQLite3 env verbose = (t, Return true) →
  ∃ candidate version,
    printed t = if verbose
                then [status_line OK_WITH_VERSION candidate version ""]
                else [].
Proof.
  rewrite sqlite_unfold.
  intros (t1 & probe & t2 & Hprobe & Hrest & ->)%bind_inv_Return.
  pose proof (import_trace env "pysqlite2.dbapi2") as Htrace.
  rewrite Hprobe in Htrace. cbn in Htrace. subst t1.
  destruct (candidate_verdict env (sqlite_candidate probe))
    as (vd & Hst & _ & Hrun).
  rewrite Hrun in Hrest. destruct vd as [e|st version bound|]; [done| |done].
  cbn in Hrest. injection Hrest as <- Hsuccess.
  exists (sqlite_candidate probe), version.
  destruct (Hst st version bound eq_refl) as [-> | [-> | ->]]; try done.
  by destruct verbose.
Qed.

(** C7, as the code has it: the line of a module that is missing and not
    required is printed whatever the verbosity, and the check returns
    success. A check that returns success for a module that is present
    prints its one [OK] line exactly when verbose output is on, and nothing
    when it is off; so does the check of the database engine. A run of all
    checks that returns prints the summary line [[OK]] exactly when
    everything passed and verbose output is off, after the lines of the
    checks of the requirements and of the database engine, which then are
    the lines of optional missing modules only. *)
Theorem quiet_success_lines (env : Env) (module_name : string)
    (attr minv maxv : option string) (is_required : bool)
    (PYTHON_DEPENDENCIES : gmap string version_tuple) :
  (∀ verbose t absent,
     _ImportPythonModule env module_name = (t, Return absent) →
     truthy absent = false → is_required = false →
     _CheckPythonModule env module_name attr minv is_required maxv verbose
     = (t ++ [Print (status_line OPTIONAL_MISSING module_name "" "")],
        Return true))
  ∧ (∀ verbose t,
       _CheckPythonModule env module_name attr minv is_required maxv verbose
       = (t, Return true) →
       ∃ probe,
         (_ImportPythonModule env module_name).2 = Return probe
         ∧ if truthy probe
           then ∃ st version,
                  (st = OK ∨ st = OK_WITH_VERSION)
                  ∧ printed t = if verbose
                                then [status_line st module_name version ""]
                                else []
           else is_required = false
                ∧ printed t
                  = [status_line OPTIONAL_MISSING module_name "" ""])
  ∧ (∀ verbose t,
       _CheckSQLite3 env verbose = (t, Return true) →
       ∃ candidate version,
         printed t = if verbose
                     then [status_line OK_WITH_VERSION candidate version ""]
                     else [])
  ∧ (∀ verbose t passed,
       CheckDependencies env PYTHON_DEPENDENCIES verbose = (t, Return passed) →
       ∃ tl looped ts ok,
         check_loop env verbose (sorted_items PYTHON_DEPENDENCIES) true
         = (tl, Return looped)
         ∧ _CheckSQLite3 env verbose = (ts, Return ok)
         ∧ passed = looped && ok
         ∧ t = [Print check_header] ++ tl ++ ts
               ++ (if passed && negb verbose then [Print "[OK]"] else [])
               ++ [Print ""]
         ∧ ("[OK]" ∈ printed t ↔ passed = true ∧ verbose = false)
         ∧ (verbose = false → passed = true →
            Forall optional_line (printed (tl ++ ts)))).
Proof.
  split; [|split; [|split]].
  - intros verbose t absent Hprobe Habsent ->.
    by rewrite (check_absent _ _ _ _ _ _ _ _ _ Hprobe Habsent).
  - intros verbose t. apply python_module_success.
  - intros verbose t. apply sqlite_success.
  - intros verbose t passed. unfold CheckDependencies.
    intros (t0 & [] & t1 & [= <-] & Hrest & ->)%bind_inv_Return.
    apply bind_inv_Return in Hrest
      as (tl & looped & t2 & Hloop & Hrest & ->).
    apply bind_inv_Return in Hrest as (ts & ok & t3 & Hsqlite & Hrest & ->).
    cbn zeta in Hrest.
    apply bind_inv_Return in Hrest as (t4 & [] & t5 & Hsummary & Hrest & ->).
    cbn in Hrest. injection Hrest as <- <-.
    assert (Hpassed : (if negb ok then false else looped) = looped && ok)
      by (by destruct ok, looped).
    rewrite Hpassed in *.
    assert (Ht4 : t4 = if looped && ok && negb verbose
                       then [Print "[OK]"] else []).
    { destruct (_ && negb verbose); by injection Hsummary as <-. }
    subst t4. exists tl, looped, ts, ok.
    split; [done|]. split; [done|]. split; [done|]. split; [done|]. split.
    + pose proof (check_loop_lines env verbose
                    (sorted_items PYTHON_DEPENDENCIES) true) as Hlines.
      rewrite Hloop in Hlines. cbn [fst] in Hlines.
      pose proof (sqlite_lines env verbose) as Hengine.
      rewrite Hsqlite in Hengine. cbn [fst] in Hengine.
      rewrite !printed_app. rewrite !elem_of_app. split.
      * intros [Hin | [Hin | [Hin | [Hin | Hin]]]].
        -- apply list_elem_of_singleton in Hin. discriminate Hin.
        -- rewrite Forall_forall in Hlines.
           by destruct (status_line_not_summary _ (Hlines _ Hin)).
        -- rewrite Forall_forall in Hengine.
           by destruct (status_line_not_summary _ (Hengine _ Hin)).
        -- destruct (looped && ok) eqn:Hall; [|by apply elem_of_nil in Hin].
           destruct verbose; [by apply elem_of_nil in Hin | done].
        -- apply list_elem_of_singleton in Hin. discriminate Hin.
      * intros [-> ->]. do 3 right. left. cbn. by left.
    + intros -> Hall. apply andb_true_iff in Hall as [-> ->].
      rewrite printed_app. apply Forall_app. split.
      * by apply quiet_loop_success in Hloop as [_ ?].
      * by rewrite (quiet_sqlite_success _ _ Hsqlite).
Qed.

Lemma quiet_success_lines_witness :
  (∀ verbose,
     _CheckPythonModule (host []) "widget" (Some "__version__") (Some "1.2.0")
       false None verbose
     = ([Import "widget"; Print (status_line OPTIONAL_MISSING "widget" "" "")],
        Return true))
  ∧ ("[OK]" ∈ printed
       [Print check_header; Import "widget";
        Import "pysqlite2.dbapi2"; Import "sqlite3"; Print "[OK]"; Print ""]
     ↔ true = true ∧ false = false).
Proof.
  split.
  - intros verbose.
    exact (proj1
      (quiet_success_lines (host []) "widget" (Some "__version__")
         (Some "1.2.0") None false ∅)
      verbose [Import "widget"] PyNone eq_refl eq_refl eq_refl).
  - assert (Hrun : CheckDependencies widget_host
                     {["widget" := at_least "1.2.0" true]} false
                   = ([Print check_header; Import "widget";
                       Import "pysqlite2.dbapi2"; Import "sqlite3";
                       Print "[OK]"; Print ""], Return true))
      by (vm_compute; reflexivity).
    destruct (proj2 (proj2 (proj2
      (quiet_success_lines widget_host "widget" (Some "__version__")
         (Some "1.2.0") None true {["widget" := at_least "1.2.0" true]})))
      false _ true Hrun)
      as (tl & looped & ts & ok & _ & _ & _ & _ & Hsummary & _).
    exact Hsummary.
Defined.

(** With verbose output off, the check of a module that is missing and not
    required returns success and still prints its line. *)
Lemma optional_missing_line_when_quiet :
  _CheckPythonModule (host []) "widget" (Some "__version__") (Some "1.2.0")
    false None false
  = ([Import "widget"; Print (status_line OPTIONAL_MISSING "widget" "" "")],
     Return true).
Proof. reflexivity. Qed.

(** ** The two candidates of the database engine *)

Lemma probe_ext (env env' : Env) (module_name : string) :
  import_ env' module_name = import_ env module_name →
  builtin_attr env' = builtin_attr env →
  _ImportPythonModule env' module_name = _ImportPythonModule env module_name.
Proof.
  destruct env as [imp attrs], env' as [imp' attrs']. cbn. intros Himp ->.
  unfold _ImportPythonModule, __import__. cbn. by rewrite Himp.
Qed.

Lemma candidate_ext (env env' : Env) (module_name minimum : string)
    (verbose : bool) :
  import_ env' module_name = import_ env module_name →
  builtin_attr env' = builtin_attr env →
  check_candidate env' module_name minimum verbose
  = check_candidate env module_name minimum verbose.
Proof.
  intros Himp Hattrs. unfold check_candidate.
  rewrite (probe_ext env env' module_name Himp Hattrs).
  destruct env as [imp attrs], env' as [imp' attrs']. cbn in Hattrs.
  by subst attrs'.
Qed.

Lemma verdict_run_imported (verbose : bool) (module_name : string)
    (t : list event) (vd : verdict) :
  imported (verdict_run verbose module_name t vd).1 = imported t.
Proof.
  destruct vd as [e|st version bound|]; cbn; [done| |done].
  rewrite imported_app. destruct (_ && _); cbn; by rewrite app_nil_r.
Qed.

(** C9: when the probe of the first candidate [pysqlite2.dbapi2] finds a
    module, the check of the database engine never imports [sqlite3], and
    its run is the same on every host that differs only in what importing
    [sqlite3] does. *)
Theorem first_candidate_short_circuits (env : Env) (verbose : bool)
    (first_probe : pyval) :
  (_ImportPythonModule env "pysqlite2.dbapi2").2 = Return first_probe →
  truthy first_probe = true →
  ("sqlite3" ∉ imported (_CheckSQLite3 env verbose).1)
  ∧ ∀ env',
      (∀ name, name ≠ "sqlite3" → import_ env' name = import_ env name) →
      builtin_attr env' = builtin_attr env →
      _CheckSQLite3 env' verbose = _CheckSQLite3 env verbose.
Proof.
  intros Hprobe Hpresent.
  pose proof (import_trace env "pysqlite2.dbapi2") as Htrace.
  destruct (_ImportPythonModule env "pysqlite2.dbapi2") as [t r] eqn:Hfirst.
  cbn in Hprobe, Htrace. subst t r.
  assert (Hcandidate : sqlite_candidate first_probe = "pysqlite2.dbapi2")
    by (unfold sqlite_candidate; by rewrite Hpresent).
  split.
  - rewrite sqlite_unfold, Hfirst, bind_Return, Hcandidate. cbn [fst].
    destruct (candidate_verdict env "pysqlite2.dbapi2") as (vd & _ & _ & ->).
    rewrite imported_app, verdict_run_imported. cbn.
    intros Hin. repeat (apply elem_of_cons in Hin as [[=] | Hin]).
    by apply elem_of_nil in Hin.
  - intros env' Himp Hattrs. rewrite !sqlite_unfold.
    rewrite (probe_ext env env' "pysqlite2.dbapi2") by auto.
    rewrite Hfirst, !bind_Return, Hcandidate.
    by rewrite (candidate_ext env env' "pysqlite2.dbapi2") by auto.
Qed.

Lemma first_candidate_short_circuits_witness :
  ("sqlite3" ∉ imported
     (_CheckSQLite3
        (host [("pysqlite2.dbapi2",
                Return (PyObject [("dbapi2",
                                   module_with "sqlite_version" "3.8.2")]));
               ("sqlite3", Return (module_with "sqlite_version" "3.6.0"))])
        true).1)
  ∧ _CheckSQLite3
      (host [("pysqlite2.dbapi2",
              Return (PyObject [("dbapi2",
                                 module_with "sqlite_version" "3.8.2")]))])
      true
    = _CheckSQLite3
        (host [("pysqlite2.dbapi2",
                Return (PyObject [("dbapi2",
                                   module_with "sqlite_version" "3.8.2")]));
               ("sqlite3", Return (module_with "sqlite_version" "3.6.0"))])
        true.
Proof.
  pose proof (first_candidate_short_circuits
    (host [("pysqlite2.dbapi2",
            Return (PyObject [("dbapi2",
                               module_with "sqlite_version" "3.8.2")]));
           ("sqlite3", Return (module_with "sqlite_version" "3.6.0"))])
    true (module_with "sqlite_version" "3.8.2") eq_refl eq_refl)
    as [Hnever Hsame].
  split; [exact Hnever|].
  apply Hsame; [|reflexivity].
  intros name Hname. unfold host. cbn [import_ find_module].
  destruct (String.eqb "pysqlite2.dbapi2" name); [done|].
  by destruct (String.eqb_spec "sqlite3" name) as [<-|_].
Defined.

(** ** Verbosity *)

Lemma quiet_bind {A B} (m m' : run A) (f f' : A → run B) :
  quiet m = quiet m' → (∀ a, quiet (f a) = quiet (f' a)) →
  quiet (m ≫= f) = quiet (m' ≫= f').
Proof.
  destruct m as [t [a|e]], m' as [t' [a'|e']]; unfold quiet;
    rewrite ?bind_Return, ?bind_Raise; cbn [fst snd];
    intros [= Ht Hr] Hf; try done; subst.
  - specialize (Hf a'). injection Hf as Ht1 ->.
    by rewrite !imported_app, Ht, Ht1.
  - by rewrite Ht.
Qed.

Lemma quiet_verdict_run (verbose : bool) (module_name : string)
    (t : list event) (vd : verdict) :
  quiet (verdict_run verbose module_name t vd)
  = quiet (verdict_run false module_name t vd).
Proof.
  unfold quiet. rewrite !verdict_run_imported. by destruct vd.
Qed.

Lemma quiet_python_module (env : Env) (module_name : string)
    (attr minv maxv : option string) (is_required : bool) :
  quiet (_CheckPythonModule env module_name attr minv is_required maxv true)
  = quiet (_CheckPythonModule env module_name attr minv is_required maxv false).
Proof.
  destruct (check_verdict env module_name attr minv maxv is_required)
    as (vd & _ & _ & Hrun).
  rewrite !Hrun. apply quiet_verdict_run.
Qed.

Lemma quiet_sqlite (env : Env) :
  quiet (_CheckSQLite3 env true) = quiet (_CheckSQLite3 env false).
Proof.
  rewrite !sqlite_unfold. apply quiet_bind; [done|]. intros probe.
  destruct (candidate_verdict env (sqlite_candidate probe))
    as (vd & _ & _ & Hrun).
  rewrite !Hrun. apply quiet_verdict_run.
Qed.

Lemma quiet_loop (env : Env) (items : list (string * version_tuple))
    (check_result : bool) :
  quiet (check_loop env true items check_result)
  = quiet (check_loop env false items check_result).
Proof.
  revert check_result. induction items as [|[name vt] items IH];
    intros check_result; cbn [check_loop]; [done|].
  apply quiet_bind; [apply quiet_python_module|]. intros ok. apply IH.
Qed.

(** C10: the result of a check of a module, of the check of the database
    engine and of a run of all checks (the boolean returned, or the
    exception that ends it) is the same with verbose output on and off, and
    so are the modules imported; only the printed lines differ. *)
Theorem verbosity_independent (env : Env)
    (PYTHON_DEPENDENCIES : gmap string version_tuple) (module_name : string)
    (attr minv maxv : option string) (is_required : bool) :
  ((_CheckPythonModule env module_name attr minv is_required maxv true).2
   = (_CheckPythonModule env module_name attr minv is_required maxv false).2
   ∧ imported
       (_CheckPythonModule env module_name attr minv is_required maxv true).1
     = imported
         (_CheckPythonModule env module_name attr minv is_required maxv
            false).1)
  ∧ ((_CheckSQLite3 env true).2 = (_CheckSQLite3 env false).2
     ∧ imported (_CheckSQLite3 env true).1
       = imported (_CheckSQLite3 env false).1)
  ∧ ((CheckDependencies env PYTHON_DEPENDENCIES true).2
     = (CheckDependencies env PYTHON_DEPENDENCIES false).2
     ∧ imported (CheckDependencies env PYTHON_DEPENDENCIES true).1
       = imported (CheckDependencies env PYTHON_DEPENDENCIES false).1).
Proof.
  assert (Hsplit : ∀ r r' : run bool,
            quiet r = quiet r' → r.2 = r'.2 ∧ imported r.1 = imported r'.1).
  { intros r r'. unfold quiet. by intros [= -> ->]. }
  split; [|split]; apply Hsplit.
  - apply quiet_python_module.
  - apply quiet_sqlite.
  - unfold CheckDependencies. apply quiet_bind; [done|]. intros _.
    apply quiet_bind; [apply quiet_loop|]. intros check_result.
    apply quiet_bind; [apply quiet_sqlite|]. intros ok. cbn zeta.
    apply quiet_bind; [|done].
    rewrite andb_false_r. by destruct (_ && _).
Qed.

(** ** The run of all checks *)

Global Instance item_le_total : Total item_le.
Proof. intros a b. unfold item_le. apply (total String.le). Qed.

Global Instance item_le_trans : Transitive item_le.
Proof. intros a b c. unfold item_le. apply (transitivity (R:=String.le)). Qed.

Lemma sorted_items_elem (deps : gmap string version_tuple) (name : string)
    (vt : version_tuple) :
  (name, vt) ∈ sorted_items deps ↔ deps !! name = Some vt.
Proof.
  unfold sorted_items. rewrite merge_sort_Permutation.
  apply elem_of_map_to_list.
Qed.

Lemma sorted_items_names (deps : gmap string version_tuple) :
  StronglySorted (strict String.le) (sorted_items deps).*1.
Proof.
  assert (Hnodup : NoDup (sorted_items deps).*1).
  { unfold sorted_items. rewrite merge_sort_Permutation.
    apply NoDup_fst_map_to_list. }
  assert (Hsorted : StronglySorted item_le (sorted_items deps)).
  { apply StronglySorted_merge_sort; apply _. }
  induction Hsorted as [|item items Hitems IH Hle]; cbn; [constructor|].
  cbn in Hnodup. apply NoDup_cons in Hnodup as [Hfresh Hnodup].
  constructor; [by apply IH|].
  apply Forall_fmap, Forall_forall. intros other Hother. cbn.
  rewrite Forall_forall in Hle. specialize (Hle other Hother).
  split; [done|]. intros Hback. apply Hfresh.
  assert (item.1 = other.1) as -> by (by apply (anti_symm String.le)).
  apply list_elem_of_fmap. eauto.
Qed.

(** Any arrangement of the items in the order of their names is this one:
    which sorting algorithm runs makes no difference. *)
Lemma sorted_items_unique (deps : gmap string version_tuple)
    (items : list (string * version_tuple)) :
  items ≡ₚ map_to_list deps → Sorted item_le items →
  items = sorted_items deps.
Proof.
  intros Hperm Hsorted.
  apply (Sorted_unique_strong item_le); [|done| |].
  - intros [name1 vt1] [name2 vt2] Hin1 Hin2 Hle Hge.
    assert (name1 = name2) as -> by (by apply (anti_symm String.le)).
    rewrite Hperm in Hin1. apply sorted_items_elem in Hin2.
    apply elem_of_map_to_list in Hin1. congruence.
  - apply Sorted_merge_sort, _.
  - unfold sorted_items. by rewrite merge_sort_Permutation.
Qed.

Lemma check_loop_returns (env : Env) (verbose : bool)
    (items : list (string * version_tuple))
    (outcomes : list (list event * bool)) (check_result : bool) :
  all_return env verbose items outcomes →
  check_loop env verbose items check_result
  = (concat outcomes.*1, Return (check_result && forallb id outcomes.*2)).
Proof.
  intros Hall. revert check_result.
  induction Hall as [|item [t ok] items outcomes Hitem _ IH];
    intros check_result; cbn [check_loop].
  - cbn. by rewrite andb_true_r.
  - cbn in Hitem. rewrite Hitem, bind_Return, IH. cbn.
    by destruct ok, check_result.
Qed.

Lemma check_loop_aborts (env : Env) (verbose : bool)
    (before after : list (string * version_tuple))
    (item : string * version_tuple) (outcomes : list (list event * bool))
    (check_result : bool) (te : list event) (e : exn) :
  all_return env verbose before outcomes →
  check_item env verbose item = (te, Raise e) →
  check_loop env verbose (before ++ item :: after) check_result
  = (concat outcomes.*1 ++ te, Raise e).
Proof.
  intros Hall Hitem. revert check_result.
  induction Hall as [|first [t ok] before outcomes Hfirst _ IH];
    intros check_result; cbn [check_loop app].
  - by rewrite Hitem.
  - cbn in Hfirst. rewrite Hfirst, bind_Return, IH. cbn.
    by rewrite app_assoc.
Qed.

Lemma some_outcome_false (outcomes : list (list event * bool)) :
  forallb id outcomes.*2 = false ↔
  ∃ outcome, outcome ∈ outcomes ∧ outcome.2 = false.
Proof.
  induction outcomes as [|[t ok] outcomes IH]; cbn.
  - split; [done|]. intros (? & []%elem_of_nil & _).
  - rewrite andb_false_iff, IH. split.
    + intros [-> | (outcome & Hin & Hfalse)].
      * exists (t, false). split; [left | done].
      * exists outcome. split; [by right | done].
    + intros (outcome & [-> | Hin]%elem_of_cons & Hfalse); [by left|].
      right. eauto.
Qed.

(** C8, as the code has it: a run of all checks goes through the
    requirements in the order of their module names. When every check
    returns, the check of the database engine runs once after them, and the
    run returns false exactly when a check of a requirement or the check of
    the database engine returned false; no check is skipped after a
    failure. When a check raises, the run ends there with that exception:
    the requirements after it are not checked and the database engine is
    not probed. *)
Theorem run_all_fold (env : Env)
    (PYTHON_DEPENDENCIES : gmap string version_tuple) (verbose : bool) :
  (StronglySorted (strict String.le) (sorted_items PYTHON_DEPENDENCIES).*1
   ∧ ∀ name vt, (name, vt) ∈ sorted_items PYTHON_DEPENDENCIES
                ↔ PYTHON_DEPENDENCIES !! name = Some vt)
  ∧ (∀ outcomes,
       all_return env verbose (sorted_items PYTHON_DEPENDENCIES) outcomes →
       (∀ ts bs, _CheckSQLite3 env verbose = (ts, Return bs) →
          let passed := forallb id outcomes.*2 && bs in
          CheckDependencies env PYTHON_DEPENDENCIES verbose
          = ([Print check_header] ++ concat outcomes.*1 ++ ts
             ++ (if passed && negb verbose then [Print "[OK]"] else [])
             ++ [Print ""], Return passed)
          ∧ (passed = false ↔
             (∃ outcome, outcome ∈ outcomes ∧ outcome.2 = false)
             ∨ bs = false))
       ∧ (∀ ts e, _CheckSQLite3 env verbose = (ts, Raise e) →
            CheckDependencies env PYTHON_DEPENDENCIES verbose
            = ([Print check_header] ++ concat outcomes.*1 ++ ts, Raise e)))
  ∧ (∀ before item after outcomes te e,
       sorted_items PYTHON_DEPENDENCIES = before ++ item :: after →
       all_return env verbose before outcomes →
       check_item env verbose item = (te, Raise e) →
       CheckDependencies env PYTHON_DEPENDENCIES verbose
       = ([Print check_header] ++ concat outcomes.*1 ++ te, Raise e)).
Proof.
  split; [split; [apply sorted_items_names | apply sorted_items_elem]|].
  split.
  - intros outcomes Hall. split.
    + intros ts bs Hsqlite passed. split.
      * unfold CheckDependencies, print.
        rewrite bind_Return, (check_loop_returns _ _ _ _ _ Hall).
        rewrite bind_Return, Hsqlite, bind_Return. cbn.
        replace (if negb bs then false else forallb id outcomes.*2)
          with passed by (unfold passed; by destruct bs, (forallb _ _)).
        rewrite <- ?app_assoc.
        by destruct (passed && negb verbose).
      * unfold passed. by rewrite andb_false_iff, some_outcome_false.
    + intros ts e Hsqlite. unfold CheckDependencies, print.
      rewrite bind_Return, (check_loop_returns _ _ _ _ _ Hall).
      rewrite bind_Return, Hsqlite. cbn. by rewrite <- ?app_assoc.
  - intros before item after outcomes te e Hitems Hall Hitem.
    unfold CheckDependencies, print.
    by rewrite bind_Return, Hitems,
      (check_loop_aborts _ _ _ _ _ _ _ _ _ Hall Hitem).
Qed.

Lemma run_all_fold_witness :
  CheckDependencies widget_host
    (<["widget" := at_least "1.2.0" true]> {["gadget" := at_least "2.0" false]})
    false
  = ([Print check_header;
      Import "gadget"; Print (status_line OPTIONAL_MISSING "gadget" "" "");
      Import "widget";
      Import "pysqlite2.dbapi2"; Import "sqlite3";
      Print "[OK]"; Print ""], Return true).
Proof.
  refine (proj1
    (proj1
       (proj1 (proj2
          (run_all_fold widget_host
             (<["widget" := at_least "1.2.0" true]>
                {["gadget" := at_least "2.0" false]})
             false))
          [([Import "gadget";
             Print (status_line OPTIONAL_MISSING "gadget" "" "")], true);
           ([Import "widget"], true)] _)
       [Import "pysqlite2.dbapi2"; Import "sqlite3"] true eq_refl)).
  change (sorted_items _)
    with [("gadget", at_least "2.0" false); ("widget", at_least "1.2.0" true)].
  constructor; [reflexivity|]. constructor; [reflexivity|]. constructor.
Defined.

(** A check that raises ends the run: the failure of an earlier check is
    not returned, and the database engine is not probed. *)
Lemma abort_skips_database_engine :
  CheckDependencies widget_host
    (<["widget" := at_least "1.x" true]> {["gadget" := at_least "2.0" true]})
    true
  = ([Print check_header;
      Import "gadget"; Print (status_line FAILURE_MISSING "gadget" "" "");
      Import "widget"], Raise ValueError).
Proof. vm_compute. reflexivity. Qed.

(** * Further properties of the module *)

(** ** Splitting and parsing version texts *)

(** X1: a version text made of two texts joined by a dot or a hyphen is
    well formed exactly when both texts are, and its vector is then theirs
    put end to end; which of the two separators joins them makes no
    difference. *)
Theorem parse_joined_texts (a b : string) (c : ascii) :
  _VERSION_SPLIT_REGEX c = true →
  (∀ v, Parse (a +:+ String c b) = Some v ↔
        ∃ va vb, Parse a = Some va ∧ Parse b = Some vb ∧ v = va ++ vb)
  ∧ Parse (a +:+ String c b) = Parse (a +:+ String "." b)
  ∧ Parse (a +:+ String c b) = Parse (a +:+ String "-" b).
Proof.
  intros Hc. rewrite !Parse_join by done. split; [|done].
  intros v. destruct (Parse a) as [va|], (Parse b) as [vb|]; simpl.
  - split; [intros [= <-]; eauto | by intros (? & ? & [= <-] & [= <-] & ->)].
  - split; [done | by intros (? & ? & _ & [=] & _)].
  - split; [done | by intros (? & ? & [=] & _)].
  - split; [done | by intros (? & ? & [=] & _)].
Qed.

Lemma parse_joined_texts_witness :
  Parse "2.0-1" = Some ([2; 0] ++ [1]) ∧ Parse "2.0-1" = Parse "2.0.1".
Proof.
  pose proof (parse_joined_texts "2.0" "1" "-" eq_refl) as (Hiff & Hdot & _).
  split; [|exact Hdot].
  apply Hiff. exists [2; 0], [1]. repeat split; reflexivity.
Defined.

(** X2: a version text with an empty piece is malformed: the empty text, a
    text that starts or ends with a dot or a hyphen, and a text with two
    separators in a row. *)
Theorem parse_empty_piece (a b : string) (c d : ascii) :
  _VERSION_SPLIT_REGEX c = true → _VERSION_SPLIT_REGEX d = true →
  Parse "" = None
  ∧ Parse (String c b) = None
  ∧ Parse (a +:+ String c "") = None
  ∧ Parse (a +:+ String c (String d b)) = None.
Proof.
  intros Hc Hd. split; [done|]. split; [|split].
  - change (String c b) with ("" +:+ String c b).
    by rewrite (Parse_join "" b c Hc).
  - rewrite (Parse_join a "" c Hc), Parse_empty. by destruct (Parse a).
  - rewrite (Parse_join a (String d b) c Hc).
    change (String d b) with ("" +:+ String d b).
    rewrite (Parse_join "" b d Hd). by destruct (Parse a).
Qed.

Lemma parse_empty_piece_witness :
  Parse "" = None ∧ Parse ".7" = None ∧ Parse "3." = None
  ∧ Parse "3.-7" = None.
Proof. exact (parse_empty_piece "3" "7" "." "-" eq_refl eq_refl). Defined.

Lemma digits_value_nonneg (acc : Z) (after_digit : bool) (s : string) (n : Z) :
  0 ≤ acc → digits_value acc after_digit s = Some n → 0 ≤ n.
Proof.
  revert acc after_digit. induction s as [|c s IH]; intros acc after_digit Hacc;
    simpl.
  - destruct after_digit; [by intros [= <-] | done].
  - destruct (is_digit c) eqn:Hdigit.
    + apply IH. unfold digit_value, is_digit in *.
      apply andb_true_iff in Hdigit as [Hlow%Nat.leb_le _]. lia.
    + destruct (_ && _); [by apply IH | done].
Qed.

Lemma py_int_nonneg (token : string) (n : Z) :
  contains "-" token = false → py_int token = Some n → 0 ≤ n.
Proof.
  intros Hminus%contains_strip. unfold py_int.
  destruct (strip token) as [|c body]; [done|].
  destruct (Ascii.eqb_spec "-" c) as [<-|Hc]; [done|].
  assert (Hbody : ∀ r, py_int_digits r = Some n → 0 ≤ n).
  { intros r. unfold py_int_digits. destruct (_ >? _); [done|].
    by apply digits_value_nonneg. }
  destruct c as [[] [] [] [] [] [] [] []]; try done; apply Hbody.
Qed.

(** X3: no component of a parsed version vector is negative: a hyphen
    always separates two pieces and is never read as a sign. *)
Theorem parse_nonnegative (raw : string) (v : list Z) :
  Parse raw = Some v → Forall (λ n, 0 ≤ n) v.
Proof.
  unfold Parse. intros Hparse%mapM_Some.
  pose proof (split_on_pieces _VERSION_SPLIT_REGEX raw "-" eq_refl) as Hpieces.
  induction Hparse as [|piece n pieces v Hn _ IH]; [constructor|].
  apply Forall_cons in Hpieces as [Hpiece Hpieces].
  constructor; [by eapply py_int_nonneg | by apply IH].
Qed.

Lemma parse_nonnegative_witness : Forall (λ n, 0 ≤ n) [1; 0; 3].
Proof. exact (parse_nonnegative "1.0-3" [1; 0; 3] eq_refl). Defined.

(** ** Bounds that meet *)

Lemma list_lt_neither (v w : list Z) :
  list_lt v w = false → list_lt w v = false → v = w.
Proof.
  revert w. induction v as [|x v IH]; intros [|y w]; simpl; try done.
  rewrite (Z.eqb_sym y x). destruct (Z.eqb_spec x y) as [->|Hne].
  - intros Hvw Hwv. f_equal. by apply IH.
  - intros ?%Z.ltb_ge ?%Z.ltb_ge. lia.
Qed.

Lemma list_lt_irrefl (v : list Z) : list_lt v v = false.
Proof.
  destruct (list_lt v v) eqn:Hlt; [|done].
  apply list_lt_lex in Hlt. by apply lex_lt_irrefl in Hlt.
Qed.

(** X4: when the declared minimum and maximum are the same version, the
    check of a present module with a well-formed version succeeds exactly
    when the module reports that very version vector. *)
Theorem pinned_version (env : Env) (module_name : string)
    (attr minv maxv : option string) (is_required verbose : bool)
    (t t' : list event) (module_object mv : pyval) (a m x : string)
    (v pin : list Z) :
  _ImportPythonModule env module_name = (t, Return module_object) →
  truthy module_object = true →
  nonempty attr = Some a →
  nonempty minv = Some m →
  nonempty maxv = Some x →
  module_version_of env module_object a = (t', Return mv) →
  truthy mv = true →
  Parse (py_str mv) = Some v →
  Parse m = Some pin → Parse x = Some pin →
  (_CheckPythonModule env module_name attr minv is_required maxv verbose).2
  = Return true ↔ v = pin.
Proof.
  intros Hprobe Hpresent Hattr Hmin Hmax Hver Hdet Hv Hm Hx.
  destruct (list_lt v pin) eqn:Hlt.
  { erewrite check_too_old by eauto. split; [done|]. intros ->.
    by rewrite list_lt_irrefl in Hlt. }
  destruct (list_gt v pin) eqn:Hgt.
  { erewrite check_too_recent by eauto. split; [done|]. intros ->.
    by rewrite list_gt_lt, list_lt_irrefl in Hgt. }
  erewrite check_within_bounds by eauto. split; [|done]. intros _.
  rewrite list_gt_lt in Hgt. by apply list_lt_neither.
Qed.

Lemma pinned_version_witness :
  (_CheckPythonModule
     (host [("widget", Return (module_with "__version__" "1.2.0"))])
     "widget" (Some "__version__") (Some "1.2.0") true (Some "1.2-0") true).2
  = Return true ↔ [1; 2; 0] = [1; 2; 0].
Proof.
  exact (pinned_version
    (host [("widget", Return (module_with "__version__" "1.2.0"))])
    "widget" (Some "__version__") (Some "1.2.0") (Some "1.2-0") true true
    [Import "widget"] [] (module_with "__version__" "1.2.0") (PyStr "1.2.0")
    "__version__" "1.2.0" "1.2-0" [1; 2; 0] [1; 2; 0]
    eq_refl eq_refl eq_refl eq_refl eq_refl eq_refl eq_refl eq_refl eq_refl
    eq_refl).
Defined.

(** X5: a trailing zero component counts. A present module that reports
    the version text [s] is too old for the minimum [s.0], and a module that
    reports [s.0] is not too old for the minimum [s]. *)
Theorem trailing_zero_counts (env : Env) (module_name : string)
    (attr minv : option string) (is_required verbose : bool)
    (t t' : list event) (module_object mv : pyval) (a m : string) :
  _ImportPythonModule env module_name = (t, Return module_object) →
  truthy module_object = true →
  nonempty attr = Some a →
  nonempty minv = Some m →
  module_version_of env module_object a = (t', Return mv) →
  truthy mv = true →
  (is_Some (Parse (py_str mv)) → m = py_str mv +:+ ".0" →
   _CheckPythonModule env module_name attr minv is_required None verbose
   = (t ++ t' ++ [Print (status_line FAILURE_VERSION_TOO_OLD module_name
                           (py_str mv) m)], Return false))
  ∧ (is_Some (Parse m) → py_str mv = m +:+ ".0" →
     _CheckPythonModule env module_name attr minv is_required None verbose
     = (t ++ t' ++ (if verbose
                    then [Print (status_line OK_WITH_VERSION module_name
                                   (py_str mv) "")]
                    else []), Return true)).
Proof.
  intros Hprobe Hpresent Hattr Hmin Hver Hdet. split.
  - intros [v Hv] ->. eapply check_too_old; eauto.
    + change ".0" with (String "." "0").
      rewrite (Parse_join _ "0" "." eq_refl), Hv. reflexivity.
    + apply list_lt_lex, lex_lt_extend.
  - intros [ms Hm] Hmv. eapply check_unbounded; eauto.
    + rewrite Hmv. change ".0" with (String "." "0").
      rewrite (Parse_join _ "0" "." eq_refl), Hm. reflexivity.
    + destruct (list_lt (ms ++ [0]) ms) eqn:Hlt; [|done].
      apply list_lt_lex in Hlt. exfalso. clear -Hlt.
      induction ms as [|y ms IH]; simpl in Hlt; inversion Hlt; subst;
        [lia | auto].
Qed.

Lemma trailing_zero_counts_witness :
  _CheckPythonModule
    (host [("widget", Return (module_with "__version__" "3.7"))])
    "widget" (Some "__version__") (Some "3.7.0") true None true
  = ([Import "widget";
      Print (status_line FAILURE_VERSION_TOO_OLD "widget" "3.7" "3.7.0")],
     Return false).
Proof.
  exact (proj1
    (trailing_zero_counts
       (host [("widget", Return (module_with "__version__" "3.7"))])
       "widget" (Some "__version__") (Some "3.7.0") true true
       [Import "widget"] [] (module_with "__version__" "3.7") (PyStr "3.7")
       "__version__" "3.7.0"
       eq_refl eq_refl eq_refl eq_refl eq_refl eq_refl)
    (ex_intro _ [3; 7] eq_refl) eq_refl).
Defined.

(** ** What the flags and the accessor decide *)

(** X6: the flag [is_required] only matters for a module that is missing:
    once the probe finds the module, a requirement that is not required is
    checked, and fails, exactly as a required one. *)
Theorem optional_only_when_missing (env : Env) (module_name : string)
    (attr minv maxv : option string) (verbose : bool)
    (t : list event) (module_object : pyval) :
  _ImportPythonModule env module_name = (t, Return module_object) →
  truthy module_object = true →
  _CheckPythonModule env module_name attr minv false maxv verbose
  = _CheckPythonModule env module_name attr minv true maxv verbose.
Proof.
  intros Hprobe Hpresent. unfold _CheckPythonModule.
  rewrite Hprobe, !bind_Return. cbn beta. by rewrite Hpresent.
Qed.

Lemma optional_only_when_missing_witness :
  _CheckPythonModule
    (host [("widget", Return (module_with "__version__" "1.1.9"))])
    "widget" (Some "__version__") (Some "1.2.0") false None true
  = ([Import "widget";
      Print (status_line FAILURE_VERSION_TOO_OLD "widget" "1.1.9" "1.2.0")],
     Return false).
Proof.
  exact (eq_trans
    (optional_only_when_missing
       (host [("widget", Return (module_with "__version__" "1.1.9"))])
       "widget" (Some "__version__") (Some "1.2.0") None true
       [Import "widget"] (module_with "__version__" "1.1.9")
       eq_refl eq_refl)
    eq_refl).
Defined.

(** X7: a maximum is only enforced together with an accessor and a minimum.
    When either of the two is missing or empty, a present module passes
    whatever maximum is declared, well formed or not, and whatever version
    it reports: nothing is read from the module. *)
Theorem maximum_needs_minimum (env : Env) (module_name : string)
    (attr minv maxv : option string) (is_required verbose : bool)
    (t : list event) (module_object : pyval) :
  _ImportPythonModule env module_name = (t, Return module_object) →
  truthy module_object = true →
  nonempty attr = None ∨ nonempty minv = None →
  _CheckPythonModule env module_name attr minv is_required maxv verbose
  = _CheckPythonModule env module_name attr minv is_required None verbose
  ∧ (_CheckPythonModule env module_name attr minv is_required maxv
       verbose).2 = Return true.
Proof.
  intros Hprobe Hpresent Hempty.
  by rewrite !(check_presence_only _ _ _ _ _ _ _ _ _ Hprobe Hpresent Hempty).
Qed.

Lemma maximum_needs_minimum_witness :
  _CheckPythonModule
    (host [("widget", Return (module_with "__version__" "9.9"))])
    "widget" (Some "__version__") None true (Some "1.0") true
  = _CheckPythonModule
      (host [("widget", Return (module_with "__version__" "9.9"))])
      "widget" (Some "__version__") None true None true
  ∧ (_CheckPythonModule
       (host [("widget", Return (module_with "__version__" "9.9"))])
       "widget" (Some "__version__") None true (Some "1.0") true).2
    = Return true.
Proof.
  exact (maximum_needs_minimum
    (host [("widget", Return (module_with "__version__" "9.9"))])
    "widget" (Some "__version__") None (Some "1.0") true true
    [Import "widget"] (module_with "__version__" "9.9")
    eq_refl eq_refl (or_intror eq_refl)).
Defined.

Lemma length_app_String (a b : string) :
  String.length (a +:+ b) = (String.length a + String.length b)%nat.
Proof. unfold String.app. induction a; simpl; congruence. Qed.

Lemma substring_app_l (a b : string) :
  substring 0 (String.length a) (a +:+ b) = a.
Proof.
  unfold String.app. induction a as [|c a IH]; simpl; [by destruct b|].
  by rewrite IH.
Qed.

Lemma substring_app_r (a b : string) :
  substring (String.length a) (String.length b) (a +:+ b) = b.
Proof.
  unfold String.app. induction a as [|c a IH]; simpl; [|done].
  induction b as [|d b IHb]; simpl; [done | by rewrite IHb].
Qed.

Lemma endswith_call (name : string) : endswith (name +:+ "()") "()" = true.
Proof.
  unfold endswith. rewrite length_app_String.
  replace (String.length name + String.length "()" - String.length "()")%nat
    with (String.length name) by lia.
  rewrite substring_app_r, String.eqb_refl.
  apply andb_true_iff. split; [done|]. apply Nat.leb_le. lia.
Qed.

Lemma drop_last2_call (name : string) : drop_last2 (name +:+ "()") = name.
Proof.
  unfold drop_last2. rewrite length_app_String. cbn [String.length].
  replace (String.length name + 2 - 2)%nat with (String.length name) by lia.
  apply substring_app_l.
Qed.

(** X8: an accessor written [name()] stands for the method [name]: the
    version is what the call of the attribute [name] returns, an exception
    of the call leaves the check uncaught, an attribute that is true but
    cannot be called raises [TypeError], and a missing or false attribute
    gives no version. *)
Theorem method_accessor (env : Env) (module_object : pyval) (name : string) :
  let method := getattr env module_object name PyNone in
  (∀ version, method = PyFunction version →
     module_version_of env module_object (name +:+ "()")
     = ([], Return version))
  ∧ (∀ e, method = PyFailing e →
       module_version_of env module_object (name +:+ "()") = ([], Raise e)
       ∧ ∀ module_name minimum maxv is_required verbose t,
           _ImportPythonModule env module_name = (t, Return module_object) →
           truthy module_object = true → minimum ≠ "" →
           _CheckPythonModule env module_name (Some (name +:+ "()"))
             (Some minimum) is_required maxv verbose
           = (t, Raise e))
  ∧ (truthy method = true →
     (∀ version, method ≠ PyFunction version) → (∀ e, method ≠ PyFailing e) →
     module_version_of env module_object (name +:+ "()")
     = ([], Raise TypeError))
  ∧ (truthy method = false →
     module_version_of env module_object (name +:+ "()")
     = ([], Return PyNone)).
Proof.
  intros method. unfold module_version_of.
  rewrite endswith_call, drop_last2_call. cbn [negb]. fold method.
  split; [by intros version ->|]. split; [|split].
  - intros e Hmethod. split; [by rewrite Hmethod|].
    intros module_name minimum maxv is_required verbose t Hprobe Hpresent Hmin.
    rewrite (check_version_raises env module_name (Some (name +:+ "()"))
               (Some minimum) maxv is_required verbose t module_object
               (name +:+ "()") minimum Hprobe Hpresent) with (t' := []) (e := e).
    + by rewrite app_nil_r.
    + cbn. destruct (String.eqb_spec (name +:+ "()") "") as [Hempty|]; [|done].
      apply (f_equal String.length) in Hempty.
      rewrite length_app_String in Hempty. cbn in Hempty. lia.
    + cbn. by destruct (String.eqb_spec minimum "").
    + unfold module_version_of.
      rewrite endswith_call, drop_last2_call. cbn [negb]. fold method.
      by rewrite Hmethod.
  - intros Htrue Hfun Hfail. rewrite Htrue.
    destruct method as [|s|n|attrs|r|e|truth text]; try done;
      [by destruct (Hfun r) | by destruct (Hfail e)].
  - by intros ->.
Qed.

Lemma method_accessor_witness :
  _CheckPythonModule
    (host [("widget",
            Return (PyObject [("get_version",
                               PyFailing (OtherError "RuntimeError"))]))])
    "widget" (Some "get_version()") (Some "1.2.0") true None true
  = ([Import "widget"], Raise (OtherError "RuntimeError")).
Proof.
  exact (proj2 (proj1 (proj2
    (method_accessor
       (host [("widget",
               Return (PyObject [("get_version",
                                  PyFailing (OtherError "RuntimeError"))]))])
       (PyObject [("get_version", PyFailing (OtherError "RuntimeError"))])
       "get_version"))
    (OtherError "RuntimeError") eq_refl)
    "widget" "1.2.0" None true true [Import "widget"] eq_refl eq_refl
    ltac:(discriminate)).
Defined.


(** ** Imports and lines of one check *)



(** ** The database engine against the general check *)

Lemma candidate_absent (env : Env) (module_name : string) (verbose : bool)
    (t : list event) (absent : pyval) :
  _ImportPythonModule env module_name = (t, Return absent) →
  truthy absent = false →
  check_candidate env module_name "3.7.8" verbose
  = (t ++ [Print (status_line FAILURE_MISSING module_name "" "")],
     Return false).
Proof.
  intros Hprobe Habsent. unfold check_candidate.
  rewrite Hprobe, bind_Return. cbn beta. by rewrite Habsent.
Qed.

Lemma candidate_raises (env : Env) (module_name : string) (verbose : bool)
    (t : list event) (e : exn) :
  _ImportPythonModule env module_name = (t, Raise e) →
  check_candidate env module_name "3.7.8" verbose = (t, Raise e).
Proof. intros Hprobe. unfold check_candidate. by rewrite Hprobe. Qed.

Lemma candidate_text (env : Env) (module_name : string) (verbose : bool)
    (t : list event) (module_object : pyval) (s : string) :
  _ImportPythonModule env module_name = (t, Return module_object) →
  truthy module_object = true →
  getattr env module_object "sqlite_version" PyNone = PyStr s →
  s ≠ "" →
  check_candidate env module_name "3.7.8" verbose
  = _CheckPythonModule env module_name (Some "sqlite_version") (Some "3.7.8")
      true None verbose.
Proof.
  intros Hprobe Hpresent Hversion Hs.
  unfold check_candidate, _CheckPythonModule.
  rewrite Hprobe, !bind_Return. cbn beta. rewrite Hpresent. cbn [negb].
  change (nonempty (Some "sqlite_version")) with (Some "sqlite_version").
  change (nonempty (Some "3.7.8")) with (Some "3.7.8").
  change (nonempty None) with (@None string). cbn iota beta.
  change (module_version_of env module_object "sqlite_version")
    with (mret (getattr env module_object "sqlite_version" PyNone) : run pyval).
  rewrite bind_mret, Hversion. cbn [truthy version_map_of py_str py_format].
  destruct (String.eqb_spec s ""); [done|]. cbn [negb].
  by rewrite bind_mret.
Qed.

Lemma candidate_not_text (env : Env) (module_name : string) (verbose : bool)
    (t : list event) (module_object : pyval) :
  _ImportPythonModule env module_name = (t, Return module_object) →
  truthy module_object = true →
  truthy (getattr env module_object "sqlite_version" PyNone) = true →
  (∀ s, getattr env module_object "sqlite_version" PyNone ≠ PyStr s) →
  check_candidate env module_name "3.7.8" verbose = (t, Raise TypeError).
Proof.
  intros Hprobe Hpresent Hdet Hnot. unfold check_candidate.
  rewrite Hprobe, bind_Return. cbn beta. rewrite Hpresent, Hdet. cbn [negb].
  destruct (getattr env module_object "sqlite_version" PyNone)
    as [|s| | | | |]; try (by rewrite app_nil_r).
  by destruct (Hnot s).
Qed.

(** X11: the check of the database engine is the general check of the
    candidate it settles on, required, with accessor [sqlite_version],
    minimum 3.7.8 and no maximum, whenever that candidate is missing, cannot
    be imported, or reports its version as a non-empty text. *)
Theorem sqlite_as_general_check (env : Env) (verbose : bool)
    (t : list event) (first_probe : pyval) :
  _ImportPythonModule env "pysqlite2.dbapi2" = (t, Return first_probe) →
  (∀ module_object,
     (_ImportPythonModule env (sqlite_candidate first_probe)).2
     = Return module_object →
     truthy module_object = true →
     ∃ s, getattr env module_object "sqlite_version" PyNone = PyStr s
          ∧ s ≠ "") →
  _CheckSQLite3 env verbose
  = (_ImportPythonModule env "pysqlite2.dbapi2";;
     _CheckPythonModule env (sqlite_candidate first_probe)
       (Some "sqlite_version") (Some "3.7.8") true None verbose).
Proof.
  intros Hfirst Htext. rewrite sqlite_unfold, Hfirst, !bind_Return.
  cbn beta. f_equal; f_equal.
  all: destruct (_ImportPythonModule env (sqlite_candidate first_probe))
         as [t2 [obj|e]] eqn:Hprobe;
       [|by rewrite (candidate_raises _ _ _ _ _ Hprobe),
                    (check_probe_raises _ _ _ _ _ _ _ _ _ Hprobe)].
  all: destruct (truthy obj) eqn:Hpresent;
       [|by rewrite (candidate_absent _ _ _ _ _ Hprobe Hpresent),
                    (check_absent _ _ _ _ _ _ _ _ _ Hprobe Hpresent)].
  all: destruct (Htext obj eq_refl Hpresent) as (s & Hs & Hne).
  all: by rewrite (candidate_text _ _ _ _ _ _ Hprobe Hpresent Hs Hne).
Qed.

Lemma sqlite_as_general_check_witness :
  _CheckSQLite3 widget_host true
  = (_ImportPythonModule widget_host "pysqlite2.dbapi2";;
     _CheckPythonModule widget_host "sqlite3"
       (Some "sqlite_version") (Some "3.7.8") true None true).
Proof.
  refine (sqlite_as_general_check widget_host true
            [Import "pysqlite2.dbapi2"] PyNone eq_refl _).
  intros module_object [= <-] _. exists "3.40.1". split; [reflexivity|].
  discriminate.
Defined.

(** X12: the check of the database engine does not make its version a text
    as the general check does: a candidate whose [sqlite_version] is true
    but not a text raises [TypeError] out of the check. *)
Theorem sqlite_version_not_text (env : Env) (verbose : bool)
    (t t' : list event) (first_probe module_object : pyval) :
  _ImportPythonModule env "pysqlite2.dbapi2" = (t, Return first_probe) →
  _ImportPythonModule env (sqlite_candidate first_probe)
  = (t', Return module_object) →
  truthy module_object = true →
  truthy (getattr env module_object "sqlite_version" PyNone) = true →
  (∀ s, getattr env module_object "sqlite_version" PyNone ≠ PyStr s) →
  _CheckSQLite3 env verbose = (t ++ t', Raise TypeError).
Proof.
  intros Hfirst Hprobe Hpresent Hdet Hnot.
  rewrite sqlite_unfold, Hfirst, bind_Return.
  by rewrite (candidate_not_text _ _ _ _ _ Hprobe Hpresent Hdet Hnot).
Qed.

Lemma sqlite_version_not_text_witness :
  _CheckSQLite3
    (host [("sqlite3", Return (PyObject [("sqlite_version", PyInt 3)]))]) true
  = ([Import "pysqlite2.dbapi2"; Import "sqlite3"], Raise TypeError)
  ∧ _CheckPythonModule
      (host [("sqlite3", Return (PyObject [("sqlite_version", PyInt 3)]))])
      "sqlite3" (Some "sqlite_version") (Some "3.7.8") true None true
    = ([Import "sqlite3";
        Print (status_line FAILURE_VERSION_TOO_OLD "sqlite3" "3" "3.7.8")],
       Return false).
Proof.
  split; [|reflexivity].
  refine (sqlite_version_not_text
    (host [("sqlite3", Return (PyObject [("sqlite_version", PyInt 3)]))]) true
    [Import "pysqlite2.dbapi2"] [Import "sqlite3"] PyNone
    (PyObject [("sqlite_version", PyInt 3)]) eq_refl eq_refl eq_refl eq_refl _).
  intros s. discriminate.
Defined.

(** ** The fallback of the database engine *)

(** X13: the fallback to [sqlite3] is for a missing first candidate only.
    When [pysqlite2.dbapi2] is present and reports a version below 3.7.8,
    the check fails with the too-old line of [pysqlite2.dbapi2] on every
    host, whatever [sqlite3] it has. *)
Theorem no_fallback_on_old_version (env : Env) (verbose : bool)
    (t : list event) (first_probe : pyval) (s : string) (v : list Z) :
  _ImportPythonModule env "pysqlite2.dbapi2" = (t, Return first_probe) →
  truthy first_probe = true →
  getattr env first_probe "sqlite_version" PyNone = PyStr s →
  Parse s = Some v →
  list_lt v [3; 7; 8] = true →
  _CheckSQLite3 env verbose
  = (t ++ t ++ [Print (status_line FAILURE_VERSION_TOO_OLD "pysqlite2.dbapi2"
                         s "3.7.8")], Return false).
Proof.
  intros Hfirst Hpresent Hversion Hv Hlt.
  assert (Hs : s ≠ "") by (by intros ->).
  assert (Hcandidate : sqlite_candidate first_probe = "pysqlite2.dbapi2")
    by (unfold sqlite_candidate; by rewrite Hpresent).
  rewrite sqlite_unfold, Hfirst, bind_Return, Hcandidate.
  rewrite (candidate_text _ _ _ _ _ _ Hfirst Hpresent Hversion Hs).
  assert (Hmodule : module_version_of env first_probe "sqlite_version"
                    = ([], Return (PyStr s))).
  { unfold module_version_of. cbn [endswith]. by rewrite <- Hversion. }
  rewrite (check_too_old env "pysqlite2.dbapi2" (Some "sqlite_version")
             (Some "3.7.8") None true verbose t first_probe "sqlite_version"
             "3.7.8" Hfirst Hpresent eq_refl eq_refl [] (PyStr s) Hmodule
             ltac:(cbn; by destruct (String.eqb_spec s "")) v Hv
             [3; 7; 8] eq_refl Hlt).
  done.
Qed.

Lemma no_fallback_on_old_version_witness :
  _CheckSQLite3
    (host [("pysqlite2.dbapi2",
            Return (PyObject [("dbapi2",
                               module_with "sqlite_version" "3.6.0")]));
           ("sqlite3", Return (module_with "sqlite_version" "3.40.1"))])
    true
  = ([Import "pysqlite2.dbapi2"; Import "pysqlite2.dbapi2";
      Print (status_line FAILURE_VERSION_TOO_OLD "pysqlite2.dbapi2" "3.6.0"
               "3.7.8")], Return false).
Proof.
  exact (no_fallback_on_old_version
    (host [("pysqlite2.dbapi2",
            Return (PyObject [("dbapi2",
                               module_with "sqlite_version" "3.6.0")]));
           ("sqlite3", Return (module_with "sqlite_version" "3.40.1"))])
    true [Import "pysqlite2.dbapi2"] (module_with "sqlite_version" "3.6.0")
    "3.6.0" [3; 6; 0] eq_refl eq_refl eq_refl eq_refl eq_refl).
Defined.



(** ** The verdict of a whole run *)

Lemma check_loop_true (env : Env) (verbose : bool)
    (items : list (string * version_tuple)) (check_result : bool)
    (t : list event) :
  check_loop env verbose items check_result = (t, Return true) →
  check_result = true
  ∧ Forall (λ item, (check_item env verbose item).2 = Return true) items.
Proof.
  revert check_result t. induction items as [|item items IH];
    intros check_result t; cbn [check_loop].
  - by intros [= _ ->].
  - intros (t1 & ok & t2 & Hitem & Hrest & ->)%bind_inv_Return.
    apply IH in Hrest as [Hacc Hitems]. destruct ok; [|done].
    split; [done|]. constructor; [by rewrite Hitem | done].
Qed.

Lemma check_loop_all_true (env : Env) (verbose : bool)
    (items : list (string * version_tuple)) :
  Forall (λ item, (check_item env verbose item).2 = Return true) items →
  (check_loop env verbose items true).2 = Return true.
Proof.
  induction 1 as [|item items Hitem _ IH]; cbn [check_loop]; [done|].
  destruct (check_item env verbose item) as [t1 r]. cbn in Hitem. subst r.
  by rewrite bind_Return.
Qed.

Lemma print_bind {A} (line : string) (m : run A) :
  (print line;; m) = (Print line :: m.1, m.2).
Proof. unfold print. by rewrite bind_Return. Qed.

(** X15: a run of all checks returns true exactly when the check of every
    requirement of the table returns true and the check of the database
    engine returns true; a check that returns false or raises rules the
    answer true out. *)
Theorem run_true_iff_all_true (env : Env)
    (PYTHON_DEPENDENCIES : gmap string version_tuple) (verbose : bool) :
  (CheckDependencies env PYTHON_DEPENDENCIES verbose).2 = Return true ↔
  (∀ module_name vt,
     PYTHON_DEPENDENCIES !! module_name = Some vt →
     (_CheckPythonModule env module_name (version_attribute_name vt)
        (minimum_version vt) (is_required vt) (maximum_version vt)
        verbose).2 = Return true)
  ∧ (_CheckSQLite3 env verbose).2 = Return true.
Proof.
  assert (Hfinal : ∀ passed : bool,
            ((if passed && negb verbose then print "[OK]" else mret tt);;
             print "";; mret passed : run bool).2 = Return passed).
  { intros passed. by destruct passed, verbose. }
  unfold CheckDependencies.
  rewrite (print_bind "Checking availability and versions of dependencies.").
  cbn [snd]. split.
  - destruct (check_loop env verbose (sorted_items PYTHON_DEPENDENCIES) true)
      as [tl [looped|e]] eqn:Hloop; [|done].
    rewrite bind_Return. cbn [snd].
    destruct (_CheckSQLite3 env verbose) as [ts [ok|e]]; [|done].
    rewrite bind_Return. cbn [snd]. cbn zeta. rewrite Hfinal.
    destruct ok; [|done]. destruct looped; [|done]. intros _.
    split; [|done].
    apply check_loop_true in Hloop as [_ Hitems].
    intros module_name vt Hin%sorted_items_elem.
    rewrite Forall_forall in Hitems. apply (Hitems _ Hin).
  - intros [Hitems Hsqlite].
    assert (Hloop : (check_loop env verbose
                       (sorted_items PYTHON_DEPENDENCIES) true).2
                    = Return true).
    { apply check_loop_all_true, Forall_forall.
      intros [module_name vt] Hin%sorted_items_elem. by apply Hitems. }
    destruct (check_loop env verbose (sorted_items PYTHON_DEPENDENCIES) true)
      as [tl r]. cbn in Hloop. subst r.
    destruct (_CheckSQLite3 env verbose) as [ts r]. cbn in Hsqlite. subst r.
    rewrite !bind_Return. cbn [snd]. cbn zeta. by rewrite Hfinal.
Qed.

(** X16: with an empty table the run still checks the database engine, and
    its result is the result of that check. *)
Theorem run_on_empty_table (env : Env) (verbose : bool) :
  (CheckDependencies env ∅ verbose).2 = (_CheckSQLite3 env verbose).2
  ∧ imported (CheckDependencies env ∅ verbose).1
    = imported (_CheckSQLite3 env verbose).1.
Proof.
  unfold CheckDependencies.
  rewrite (print_bind "Checking availability and versions of dependencies.").
  change (sorted_items ∅) with (@nil (string * version_tuple)).
  cbn [check_loop]. rewrite bind_mret. cbn [fst snd].
  assert (Hskip : ∀ line t, imported (Print line :: t) = imported t) by done.
  destruct (_CheckSQLite3 env verbose) as [ts [ok|e]]; [|done].
  rewrite bind_Return. cbn [fst snd]. rewrite Hskip, imported_app.
  destruct ok, verbose; split; try done; cbn; by rewrite app_nil_r.
Qed.

(** ** A version that is an integer *)

(** X17: a version that the module holds as an integer is made a text and
    read back. A positive integer [n] below [10 ^ 4300] is the one-component
    vector [n]; a positive integer of more than 4300 digits is refused with
    [ValueError] when it is made a text; a negative integer is malformed
    (too long to be made a text, or else its sign is taken for a separator);
    and zero is no version at all. *)
Theorem integer_version (n : Z) :
  (0 < n →
   truthy (PyInt n) = true
   ∧ (n < 10 ^ int_max_str_digits →
      py_format (PyInt n) = ([], Return (py_str (PyInt n)))
      ∧ Parse (py_str (PyInt n)) = Some [n])
   ∧ (10 ^ int_max_str_digits ≤ n →
      py_format (PyInt n) = ([], Raise ValueError)))
  ∧ (n < 0 →
     truthy (PyInt n) = true
     ∧ Parse (py_str (PyInt n)) = None
     ∧ py_format (PyInt n) ≫= version_map = ([], Raise ValueError))
  ∧ (n = 0 → truthy (PyInt n) = false).
Proof.
  split; [|split].
  - destruct n as [|p|p]; [lia| |lia]. intros _. split; [done|].
    cbn [py_format py_str]. split.
    + intros Hfits%numeral_fits. rewrite Parse_numeral.
      destruct (Z.gtb_spec (digit_count (numeral (Z.pos p)))
                  int_max_str_digits); [lia|done].
    + intros Hlong.
      destruct (Z.gtb_spec (digit_count (numeral (Z.pos p)))
                  int_max_str_digits) as [|Hfits]; [done|].
      apply numeral_fits in Hfits. lia.
  - destruct n as [|p|p]; [lia|lia|]. intros _. split; [done|].
    assert (Hnone : Parse (py_str (PyInt (Z.neg p))) = None)
      by (cbn [py_str]; by rewrite Parse_numeral).
    split; [done|].
    cbn [py_format]. destruct (_ >? _); [done|].
    by rewrite bind_mret, (version_map_None _ Hnone).
  - by intros ->.
Qed.

Lemma integer_version_witness :
  (truthy (PyInt 12) = true
   ∧ py_format (PyInt 12) = ([], Return "12")
   ∧ Parse "12" = Some [12])
  ∧ py_format (PyInt (10 ^ int_max_str_digits)) = ([], Raise ValueError).
Proof.
  split.
  - pose proof (proj1 (integer_version 12) eq_refl) as (Htrue & Hfits & _).
    split; [exact Htrue|]. apply Hfits. vm_compute. reflexivity.
  - pose proof (Z.pow_pos_nonneg 10 int_max_str_digits eq_refl
                  ltac:(discriminate)) as Hpositive.
    exact (proj2 (proj2 (proj1 (integer_version (10 ^ int_max_str_digits))
                           Hpositive))
             (Z.le_refl _)).
Defined.

(** ** The leaf of a dotted name *)

Lemma walk_resolve (env : Env) (top leaf : pyval) (names : list string) :
  resolve env top names = Some leaf → walk env top names = leaf.
Proof.
  revert top. induction names as [|name names IH]; intros top; simpl.
  - by intros [= ->].
  - unfold getattr at 2.
    destruct (attr_lookup env top name) as [next|]; [|done]. apply IH.
Qed.

(** X18: when the import succeeds and every name after the first dot is an
    attribute of the object before it, the probe returns the object at the
    end of the chain, and the top-level module itself for a name without
    dots. The leaf is returned as it is: a leaf that is a false value is
    then taken for a missing module. *)
Theorem probe_finds_leaf (env : Env) (module_name : string)
    (top leaf : pyval) :
  (__import__ env module_name).2 = Return top →
  resolve env top (tail (split_on (Ascii.eqb ".") module_name)) = Some leaf →
  _ImportPythonModule env module_name = ([Import module_name], Return leaf)
  ∧ (contains "." module_name = false → leaf = top)
  ∧ (truthy leaf = false →
     ∀ attr minv maxv verbose,
       _CheckPythonModule env module_name attr minv true maxv verbose
       = ([Import module_name;
           Print (status_line FAILURE_MISSING module_name "" "")],
          Return false)).
Proof.
  intros Himport Hresolve.
  assert (Hprobe : _ImportPythonModule env module_name
                   = ([Import module_name], Return leaf)).
  { unfold _ImportPythonModule, __import__ in *. cbn [snd] in Himport.
    rewrite Himport. do 2 f_equal.
    destruct (contains "." module_name) eqn:Hdot.
    - by apply walk_resolve.
    - rewrite (split_on_no_sep _ _ Hdot) in Hresolve. by injection Hresolve. }
  split; [done|]. split.
  - intros Hdot. rewrite (split_on_no_sep _ _ Hdot) in Hresolve.
    by injection Hresolve.
  - intros Hfalse attr minv maxv verbose.
    by rewrite (check_absent _ _ _ _ _ _ _ _ _ Hprobe Hfalse).
Qed.

Lemma probe_finds_leaf_witness :
  _ImportPythonModule
    (host [("pysqlite2.dbapi2",
            Return (PyObject [("dbapi2",
                               module_with "sqlite_version" "3.8.2")]))])
    "pysqlite2.dbapi2"
  = ([Import "pysqlite2.dbapi2"],
     Return (module_with "sqlite_version" "3.8.2")).
Proof.
  exact (proj1
    (probe_finds_leaf
       (host [("pysqlite2.dbapi2",
               Return (PyObject [("dbapi2",
                                  module_with "sqlite_version" "3.8.2")]))])
       "pysqlite2.dbapi2"
       (PyObject [("dbapi2", module_with "sqlite_version" "3.8.2")])
       (module_with "sqlite_version" "3.8.2") eq_refl eq_refl)).
Defined.

(** ** The imports of a run *)






Lemma run_true_iff_all_true_witness :
  (_CheckPythonModule widget_host "widget" (Some "__version__") (Some "1.2.0")
     true None false).2 = Return true
  ∧ (_CheckSQLite3 widget_host false).2 = Return true.
Proof.
  pose proof (proj1 (run_true_iff_all_true widget_host
                       {["widget" := at_least "1.2.0" true]} false) eq_refl)
    as [Hitems Hsqlite].
  split; [|exact Hsqlite].
  exact (Hitems "widget" (at_least "1.2.0" true) eq_refl).
Defined.
